(** * Pi-hole automation: status-change alerting and task orchestration

    A shallow embedding of the four scripts of the repository
    ([down_alert.py], [monitor.py], [maintenance.py], [monitor_bot.py])
    and the properties of their alerting and task-running logic.

    Python dictionaries whose iteration order is observable (the sampled
    metrics, the task results, the maintenance state) are association
    lists with the dictionary operations written out; dictionaries that
    are only looked up and updated by key are [gmap]s.  Processes, the
    clock, the state files and the operator channel live in an explicit
    world that every script threads through a small state-and-exception
    monad. *)

From Stdlib Require Import ZArith QArith Lia List Bool Ascii String.
From stdpp Require Import base option list gmap strings pretty fin_maps.

Local Open Scope string_scope.
Local Open Scope list_scope.

(** ** Python values as they come out of [json.load] *)

(** The scalar JSON values the scripts store and compare: [null], booleans,
    integers and strings.  The scripts themselves only ever write strings
    and booleans into the values they later compare; numbers with a
    fraction, arrays and objects are left out. *)
Inductive pyval : Type :=
| PNone
| PBool (b : bool)
| PInt (z : Z)
| PStr (s : string).

Definition Z_of_bool (b : bool) : Z := if b then 1%Z else 0%Z.

(** Python's [==] on these values: [bool] is a subclass of [int], so
    [True == 1]; values of unrelated types are unequal. *)
Definition py_eq (a b : pyval) : bool :=
  match a, b with
  | PNone, PNone => true
  | PBool x, PBool y => Bool.eqb x y
  | PBool x, PInt z | PInt z, PBool x => Z.eqb (Z_of_bool x) z
  | PInt x, PInt y => Z.eqb x y
  | PStr x, PStr y => String.eqb x y
  | _, _ => false
  end.

Definition py_ne (a b : pyval) : bool := negb (py_eq a b).

(** Python's truth value, as used by [not x] and [if x:]. *)
Definition truthy (v : pyval) : bool :=
  match v with
  | PNone => false
  | PBool b => b
  | PInt z => negb (Z.eqb z 0)
  | PStr s => negb (String.eqb s "")
  end.

(** [d.get(k)]: the value under [k], or [None]. *)
Definition py_get (d : gmap string pyval) (k : string) : pyval :=
  default PNone (d !! k).

(** ** Ordered dictionaries *)

(** A Python [dict] seen through [items()]: the bindings in insertion
    order.  [dict_set] is [d[k] = v]: an existing key keeps its place and
    takes the new value, a new key goes to the end. *)
Module PyDict.

Fixpoint dict_get {V : Type} (d : list (string * V)) (k : string) : option V :=
  match d with
  | [] => None
  | (k', v) :: d' => if String.eqb k' k then Some v else dict_get d' k
  end.

Fixpoint dict_set {V : Type} (d : list (string * V)) (k : string) (v : V)
  : list (string * V) :=
  match d with
  | [] => [(k, v)]
  | (k', v') :: d' =>
      if String.eqb k' k then (k', v) :: d' else (k', v') :: dict_set d' k v
  end.

Definition keys {V : Type} (d : list (string * V)) : list string := map fst d.

End PyDict.
Import PyDict.

(** ** Strings *)

Definition newline : string := String (ascii_of_nat 10) EmptyString.

(** ["\n".join(lines)] *)
Definition join_lines (lines : list string) : string := String.concat newline lines.

(** [s.strip()] for the ASCII white space of [str.isspace]: tab, line
    feed, vertical tab, form feed, carriage return, the four separators
    28 to 31 and the space.  Strings are byte strings here, so the
    non-ASCII white space of Unicode is left in place. *)
Definition is_space (a : ascii) : bool :=
  let n := nat_of_ascii a in
  (Nat.leb 9 n && Nat.leb n 13) || (Nat.leb 28 n && Nat.leb n 31) || Nat.eqb n 32.

Fixpoint lstrip_chars (l : list ascii) : list ascii :=
  match l with
  | [] => []
  | a :: l' => if is_space a then lstrip_chars l' else l
  end.

Definition strip (s : string) : string :=
  string_of_list_ascii
    (rev (lstrip_chars (rev (lstrip_chars (list_ascii_of_string s))))).

(** [s.upper()] on ASCII letters. *)
Definition upper_char (a : ascii) : ascii :=
  let n := nat_of_ascii a in
  if Nat.leb 97 n && Nat.leb n 122 then ascii_of_nat (n - 32) else a.

Fixpoint upper (s : string) : string :=
  match s with
  | EmptyString => EmptyString
  | String a s' => String (upper_char a) (upper s')
  end.

(** ** Data model *)

(** A [datetime.now()] reading, with the renderings the scripts take of
    it: [isoformat()], [%Y-%m-%d], [%Y-%m-%d %H:%M:%S] and
    [%Y-%m-%d_%H%M%S]. *)
Record datetime : Type := mkDatetime {
  dt_iso : string;
  dt_date : string;
  dt_seconds : string;
  dt_stamp : string
}.

(** One entry of [maintenance_state.json]. *)
Record TaskRecord : Type := mkTaskRecord {
  last_run : string;
  success : bool;
  output : string
}.

(** [monitor_state.json]: each top-level key may be absent ([None]); a
    metric value and [last_check] may be [null] (inner [None]).  The
    empty dictionary has all three absent. *)
Record MonState : Type := mkMonState {
  ms_metrics : option (list (string * option Q));
  ms_alerts : option (gmap string bool);
  ms_last_check : option (option string)
}.

(** The state files, [None] when a file does not exist. *)
Record Files : Type := mkFiles {
  f_down_alert : option (gmap string pyval);
  f_monitor : option MonState;
  f_maint : option (list (string * TaskRecord))
}.

(** [config.json] as far as the scripts' start-up decisions read it: the
    ["telegram"] object, absent ([None]) or a dictionary of scalars. *)
Record Config : Type := mkConfig {
  cfg_telegram : option (gmap string pyval)
}.

(** [config.get("telegram", {}).get(key)] *)
Definition config_get_credential (config : Config) (key : string) : pyval :=
  match cfg_telegram config with
  | Some t => py_get t key
  | None => PNone
  end.

(** A credential is missing when the bot token or the chat id is absent,
    null or empty. *)
Definition credential_missing (config : Config) : Prop :=
  truthy (config_get_credential config "bot_token") = false
  ∨ truthy (config_get_credential config "chat_id") = false.

(** ** The world outside the scripts *)

(** What an external process does once it is asked to start: it fails to
    launch, or it writes lines to its standard output (possibly breaking
    off with an error while the caller reads them), writes to its
    standard error, changes state files and exits with a code. *)
Record proc : Type := mkProc {
  p_launch_error : option string;
  p_lines : list string;
  p_read_error : option string;
  p_stderr : string;
  p_returncode : Z;
  p_touch : Files -> Files
}.

(** The answer of the messaging API to one POST. *)
Inductive http_result : Type :=
| HttpResponse (status : Z) (text : string)
| HttpFailure (e : string).

(** The host: the behaviour of external commands (as a function of the
    commands launched before), the commands launched so far, the clock and
    the number of readings taken, the messaging API and the messages
    posted to it, the state files, the log lines written, and the replies
    sent to the operator by the bot. *)
Record World : Type := mkWorld {
  w_env : list (list string) -> list string -> proc;
  w_history : list (list string);
  w_clock : nat -> datetime;
  w_ticks : nat;
  w_http : nat -> http_result;
  w_outbox : list string;
  w_files : Files;
  w_log : list string;
  w_replies : list string
}.

Definition set_history (h : list (list string)) (w : World) : World :=
  mkWorld (w_env w) h (w_clock w) (w_ticks w) (w_http w) (w_outbox w)
          (w_files w) (w_log w) (w_replies w).
Definition set_ticks (n : nat) (w : World) : World :=
  mkWorld (w_env w) (w_history w) (w_clock w) n (w_http w) (w_outbox w)
          (w_files w) (w_log w) (w_replies w).
Definition set_outbox (o : list string) (w : World) : World :=
  mkWorld (w_env w) (w_history w) (w_clock w) (w_ticks w) (w_http w) o
          (w_files w) (w_log w) (w_replies w).
Definition set_files (f : Files) (w : World) : World :=
  mkWorld (w_env w) (w_history w) (w_clock w) (w_ticks w) (w_http w) (w_outbox w)
          f (w_log w) (w_replies w).
Definition set_log (l : list string) (w : World) : World :=
  mkWorld (w_env w) (w_history w) (w_clock w) (w_ticks w) (w_http w) (w_outbox w)
          (w_files w) l (w_replies w).
Definition set_replies (r : list string) (w : World) : World :=
  mkWorld (w_env w) (w_history w) (w_clock w) (w_ticks w) (w_http w) (w_outbox w)
          (w_files w) (w_log w) r.

(** ** The script monad *)

(** What a Python computation can end with besides a value: [sys.exit],
    which no [except Exception] catches, or an exception with its
    [str(e)]. *)
Inductive exn : Type :=
| SystemExit (code : Z)
| PyException (msg : string).

Inductive outcome (A : Type) : Type :=
| Ok (a : A)
| Raise (e : exn).
Arguments Ok {A} a.
Arguments Raise {A} e.

Definition M (A : Type) : Type := World -> outcome A * World.

#[global] Instance M_ret : MRet M := fun A a w => (Ok a, w).

#[global] Instance M_bind : MBind M := fun A B f m w =>
  match m w with
  | (Ok a, w') => f a w'
  | (Raise e, w') => (Raise e, w')
  end.

Definition raise {A : Type} (e : exn) : M A := fun w => (Raise e, w).

(** [try: body  except Exception as e: handler(str(e))] *)
Definition try_except {A : Type} (body : M A) (handler : string -> M A) : M A :=
  fun w =>
    match body w with
    | (Raise (PyException msg), w') => handler msg w'
    | r => r
    end.

Definition get_world : M World := fun w => (Ok w, w).
Definition modify_world (f : World -> World) : M unit := fun w => (Ok tt, f w).

(** A [for] loop with an accumulator. *)
Fixpoint for_each {A B : Type} (l : list A) (body : B -> A -> M B) (acc : B) : M B :=
  match l with
  | [] => mret acc
  | x :: l' => acc' ← body acc x; for_each l' body acc'
  end.

(** [datetime.now()] *)
Definition now : M datetime := fun w =>
  (Ok (w_clock w (w_ticks w)), set_ticks (S (w_ticks w)) w).

(** Appending one line to a log file. *)
Definition write_log (line : string) : M unit :=
  modify_world (fun w => set_log (w_log w ++ [line]) w).

(** Starting an external process: the attempt is recorded; a launch error
    is raised; otherwise the process runs and its effect on the state
    files is in place by the time the caller has waited for it. *)
Definition spawn (argv : list string) : M proc := fun w =>
  let p := w_env w (w_history w) argv in
  let w' := set_history (w_history w ++ [argv]) w in
  match p_launch_error p with
  | Some e => (Raise (PyException e), w')
  | None => (Ok p, set_files (p_touch p (w_files w')) w')
  end.

(** [subprocess.run(argv, capture_output=True, text=True)]: standard
    output, standard error and exit code. *)
Definition subprocess_run (argv : list string) : M (string * string * Z) :=
  p ← spawn argv;
  match p_read_error p with
  | Some e => raise (PyException e)
  | None => mret (String.concat "" (p_lines p), p_stderr p, p_returncode p)
  end.

(** [requests.post(url, json={"chat_id": .., "text": msg}, timeout=10)] *)
Definition http_post (msg : string) : M (Z * string) := fun w =>
  let w' := set_outbox (w_outbox w ++ [msg]) w in
  match w_http w (length (w_outbox w)) with
  | HttpResponse status text => (Ok (status, text), w')
  | HttpFailure e => (Raise (PyException e), w')
  end.

(** How a task runner must classify a process: when the process could
    not be started or read, the run failed and its output is the error
    text; otherwise the run succeeded exactly when the exit code is 0. *)
Definition classified (p : proc) (ok : bool) (out : string) : Prop :=
  match p_launch_error p, p_read_error p with
  | Some e, _ => ok = false ∧ out = e
  | None, Some e => ok = false ∧ out = e
  | None, None => (ok = true ↔ p_returncode p = 0%Z)
  end.

(** [m] run in [w] returns [a] and leaves [w']. *)
Definition returns {A : Type} (m : M A) (w : World) (a : A) (w' : World) : Prop :=
  m w = (Ok a, w').

(** What a piece of script did to the world besides logging, reading the
    clock and touching the state files: it launched [cmds] and posted
    [posts], in that order. *)
Record evolves (w w' : World) (cmds : list (list string)) (posts : list string) : Prop :=
  mkEvolves {
    ev_env : w_env w' = w_env w;
    ev_clock : w_clock w' = w_clock w;
    ev_http : w_http w' = w_http w;
    ev_history : w_history w' = w_history w ++ cmds;
    ev_outbox : w_outbox w' = w_outbox w ++ posts;
    ev_replies : w_replies w' = w_replies w
  }.

(** ** down_alert.py *)

Module DownAlert.

(** [load_state] without a state file. *)
Definition default_state : gmap string pyval :=
  <["internet" := PBool true]> (<["pihole_status" := PStr "unknown"]> ∅).

(** [load_state]: the content of the state file when it exists, the
    default otherwise. *)
Definition load_state (file : option (gmap string pyval)) : gmap string pyval :=
  match file with
  | Some st => st
  | None => default_state
  end.

(** ["up" if current_pihole else "down"] *)
Definition label (current_pihole : bool) : string :=
  if current_pihole then "up" else "down".

Definition msg_pihole_up : string := "✅ Pi-hole is BACK UP!".
Definition msg_pihole_down : string := "⚠️ Pi-hole is DOWN!".
Definition msg_internet_restored : string := "✅ Internet connection RESTORED!".
Definition msg_internet_lost : string := "⚠️ Internet connection LOST!".

(** The Pi-hole status check of the main logic: the alerts so far and the
    state, both updated when the stored label differs from the derived
    one. *)
Definition check_pihole_change (current_pihole : bool)
    (acc : list string * gmap string pyval) : list string * gmap string pyval :=
  let '(alerts, state) := acc in
  if py_ne (py_get state "pihole_status") (PStr (label current_pihole)) then
    (alerts ++ [if current_pihole then msg_pihole_up else msg_pihole_down],
     <["pihole_status" := PStr (label current_pihole)]> state)
  else (alerts, state).

(** The internet status check of the main logic. *)
Definition check_internet_change (current_internet : bool)
    (acc : list string * gmap string pyval) : list string * gmap string pyval :=
  let '(alerts, state) := acc in
  if py_ne (py_get state "internet") (PBool current_internet) then
    (alerts ++ [if current_internet then msg_internet_restored else msg_internet_lost],
     <["internet" := PBool current_internet]> state)
  else (alerts, state).

(** The two transition checks in program order, from an empty alert list. *)
Definition detect (state : gmap string pyval) (obs : bool * bool)
  : list string * gmap string pyval :=
  check_internet_change (snd obs) (check_pihole_change (fst obs) ([], state)).

(** One run of the script for a given observation: load, detect, persist.
    The result is the alerts of the run and the state file it leaves. *)
Definition run_once (file : option (gmap string pyval)) (obs : bool * bool)
  : list string * option (gmap string pyval) :=
  let '(alerts, state) := detect (load_state file) obs in
  (alerts, Some state).

(** Consecutive runs, each one reading the file the previous one wrote:
    the alerts of every run, in order. *)
Fixpoint runs (file : option (gmap string pyval)) (obss : list (bool * bool))
  : list (list string) :=
  match obss with
  | [] => []
  | obs :: rest =>
      let '(alerts, file') := run_once file obs in
      alerts :: runs file' rest
  end.

(** The state file after consecutive runs. *)
Fixpoint file_after (file : option (gmap string pyval)) (obss : list (bool * bool))
  : option (gmap string pyval) :=
  match obss with
  | [] => file
  | obs :: rest => file_after (snd (run_once file obs)) rest
  end.

Definition is_service_alert (msg : string) : bool :=
  String.eqb msg msg_pihole_up || String.eqb msg msg_pihole_down.

Definition is_internet_alert (msg : string) : bool :=
  String.eqb msg msg_internet_restored || String.eqb msg msg_internet_lost.

(** Number of service (resp. internet) alerts in one run's alert list. *)
Definition service_alerts (alerts : list string) : nat :=
  length (filter (fun m => is_service_alert m = true) alerts).

Definition internet_alerts (alerts : list string) : nat :=
  length (filter (fun m => is_internet_alert m = true) alerts).

(** Whether the stored status of a domain differs, in Python's sense,
    from the one derived from the observation: the two conditions of the
    main logic. *)
Definition service_differs (state : gmap string pyval) (obs : bool * bool) : bool :=
  py_ne (py_get state "pihole_status") (PStr (label (fst obs))).

Definition internet_differs (state : gmap string pyval) (obs : bool * bool) : bool :=
  py_ne (py_get state "internet") (PBool (snd obs)).

(** *** The script as a whole *)

Definition log (msg : string) : M unit :=
  t ← now; write_log ("[Down Alert] " ++ dt_seconds t ++ " - " ++ msg).

(** [d[key]] on the configuration: a missing key is a [KeyError]. *)
Definition config_index (d : gmap string pyval) (key : string) : M pyval :=
  match d !! key with
  | Some v => mret v
  | None => raise (PyException ("'" ++ key ++ "'"))
  end.

(** Loading the configuration: the file must exist and
    [config["telegram"]["bot_token"]], [config["telegram"]["chat_id"]] must
    be present; nothing catches the errors. *)
Definition load_config (config_file : option Config) : M (pyval * pyval) :=
  match config_file with
  | None => raise (PyException "Config file not found")
  | Some config =>
      match cfg_telegram config with
      | None => raise (PyException "'telegram'")
      | Some t =>
          bot_token ← config_index t "bot_token";
          chat_id ← config_index t "chat_id";
          mret (bot_token, chat_id)
      end
  end.

Definition check_pihole : M bool :=
  try_except
    ('(out, _, _) ← subprocess_run ["systemctl"; "is-active"; "pihole-FTL"];
     mret (String.eqb (strip out) "active"))
    (fun e => log ("Error checking Pi-hole FTL service: " ++ e);; mret false).

Definition check_internet : M bool :=
  try_except
    ('(_, _, rc) ← subprocess_run ["ping"; "-c"; "1"; "-W"; "2"; "1.1.1.1"];
     mret (Z.eqb rc 0))
    (fun e => log ("Error checking internet: " ++ e);; mret false).

Definition send_telegram (test_mode : bool) (msg : string) : M unit :=
  if test_mode then log ("[TEST MODE] Telegram alert: " ++ msg)
  else
    try_except
      ('(status, text) ← http_post msg;
       if negb (Z.eqb status 200) then log ("Failed to send Telegram alert: " ++ text)
       else mret tt)
      (fun e => log ("Failed to send Telegram alert: " ++ e)).

Definition save_state (state : gmap string pyval) : M unit :=
  modify_world (fun w =>
    set_files (mkFiles (Some state) (f_monitor (w_files w)) (f_maint (w_files w))) w).

(** The text sent for an alert: the message and the time of the run. *)
Definition full_msg (t : datetime) (msg : string) : string :=
  msg ++ newline ++ "Timestamp: " ++ dt_seconds t.

Definition main (config_file : option Config) (test_mode : bool) : M unit :=
  _ ← load_config config_file;
  _ ← now;
  w ← get_world;
  let state := load_state (f_down_alert (w_files w)) in
  current_pihole ← check_pihole;
  current_internet ← check_internet;
  let '(alerts, state') := detect state (current_pihole, current_internet) in
  (match alerts with
   | [] => log "No change in Pi-hole or internet status."
   | _ =>
       t ← now;
       for_each alerts
         (fun _ msg =>
            send_telegram test_mode (full_msg t msg);;
            log ("Telegram alert sent: " ++ full_msg t msg))
         tt
   end);;
  save_state state'.

End DownAlert.

(** ** monitor.py *)

Module Monitor.

Definition THRESHOLDS : list (string * Z) :=
  [("cpu", 85%Z); ("ram", 90%Z); ("disk", 90%Z); ("temp", 75%Z)].

(** [value > threshold] between a float and an int, which Python compares
    exactly. *)
Definition exceeds (value : Q) (threshold : Z) : bool :=
  negb (Qle_bool value (inject_Z threshold)).

(** The lines of the alert message before rendering: the heading, and one
    line per breached metric with its value and threshold. *)
Inductive msg_line : Type :=
| Header
| Breach (key : string) (value : Q) (threshold : Z).

(** The loop variables of [check_alerts]. *)
Record loop_state : Type := mkLoop {
  alerts : gmap string bool;
  send_alert : bool;
  msg_lines : list msg_line
}.

(** One iteration of the loop of [check_alerts].  Comparing a number with
    the [None] that [THRESHOLDS.get] gives for an unknown key is a
    [TypeError]: the iteration has no result. *)
Definition check_step (force : bool) (prev_alerts : gmap string bool)
    (st : loop_state) (item : string * option Q) : option loop_state :=
  let '(key, value) := item in
  let threshold := dict_get THRESHOLDS key in
  match value with
  | None => Some (mkLoop (<[key := false]> (alerts st)) (send_alert st) (msg_lines st))
  | Some v =>
      match threshold with
      | None => None
      | Some t =>
          if exceeds v t then
            Some (mkLoop (<[key := true]> (alerts st))
                         (if force || negb (default false (prev_alerts !! key))
                          then true else send_alert st)
                         (msg_lines st ++ [Breach key v t]))
          else
            Some (mkLoop (<[key := false]> (alerts st)) (send_alert st) (msg_lines st))
      end
  end.

Fixpoint check_loop (force : bool) (prev_alerts : gmap string bool)
    (metrics : list (string * option Q)) (st : loop_state) : option loop_state :=
  match metrics with
  | [] => Some st
  | item :: rest =>
      match check_step force prev_alerts st item with
      | Some st' => check_loop force prev_alerts rest st'
      | None => None
      end
  end.

(** [check_alerts] up to the final join: whether to notify, the new flags
    and the message lines; [None] when the loop raises. *)
Definition check_alerts_lines (force : bool) (metrics : list (string * option Q))
    (prev_alerts : gmap string bool) : option (bool * gmap string bool * list msg_line) :=
  match check_loop force prev_alerts metrics (mkLoop ∅ false [Header]) with
  | Some st => Some (send_alert st, alerts st, msg_lines st)
  | None => None
  end.

(** Consecutive evaluations, the flags of each one being the previous
    flags of the next, as [main] does through the state file: the
    notification decision of every evaluation. *)
Fixpoint evaluations (force : bool) (prev_alerts : gmap string bool)
    (samples : list (list (string * option Q))) : option (list bool) :=
  match samples with
  | [] => Some []
  | metrics :: rest =>
      match check_alerts_lines force metrics prev_alerts with
      | Some (send, flags, _) =>
          match evaluations force flags rest with
          | Some sends => Some (send :: sends)
          | None => None
          end
      | None => None
      end
  end.

(** A metric is breached in a sample when its value is a number above its
    threshold. *)
Definition breached (metrics : list (string * option Q)) (key : string) : bool :=
  match dict_get metrics key, dict_get THRESHOLDS key with
  | Some (Some v), Some t => exceeds v t
  | _, _ => false
  end.

(** The test of the loop body on one item: the value is a number above
    the threshold of its key. *)
Definition item_breached (item : string * option Q) : bool :=
  match snd item, dict_get THRESHOLDS (fst item) with
  | Some v, Some t => exceeds v t
  | _, _ => false
  end.

(** The items on which the loop body sets [send_alert]. *)
Definition triggers (force : bool) (prev_alerts : gmap string bool)
    (item : string * option Q) : bool :=
  item_breached item && (force || negb (default false (prev_alerts !! fst item))).

(** The line the loop body appends for an item, if any. *)
Definition breach_line (item : string * option Q) : list msg_line :=
  match snd item, dict_get THRESHOLDS (fst item) with
  | Some v, Some t => if exceeds v t then [Breach (fst item) v t] else []
  | _, _ => []
  end.

(** The flags the loop leaves: one insertion per item, in order. *)
Definition insert_flags (metrics : list (string * option Q)) (flags : gmap string bool)
  : gmap string bool :=
  fold_left (fun m item => <[fst item := item_breached item]> m) metrics flags.

(** A sample with the bindings of one key removed. *)
Definition without (k : string) (metrics : list (string * option Q))
  : list (string * option Q) :=
  filter (fun item => fst item ≠ k) metrics.

(** Samples on which the comparison never meets a missing threshold:
    every key that carries a number has one.  The samples of
    [get_metrics] are of this kind. *)
Definition known_keys (metrics : list (string * option Q)) : Prop :=
  ∀ k v, (k, Some v) ∈ metrics → is_Some (dict_get THRESHOLDS k).

(** Between two consecutive samples no metric goes from not breached to
    breached. *)
Definition no_new_breach (s s' : list (string * option Q)) : Prop :=
  ∀ k, breached s' k = true → breached s k = true.

Fixpoint sustained (s : list (string * option Q))
    (rest : list (list (string * option Q))) : Prop :=
  match rest with
  | [] => True
  | s' :: rest' => no_new_breach s s' ∧ sustained s' rest'
  end.

Section Rendering.

(** How Python prints a float. *)
Variable float_repr : Q -> string.

Definition render_line (l : msg_line) : string :=
  match l with
  | Header => "⚠️ Monitor Alert"
  | Breach key value threshold =>
      upper key ++ ": " ++ float_repr value ++ "% (Threshold: "
        ++ pretty threshold ++ "%)"
  end.

Definition check_alerts (force : bool) (metrics : list (string * option Q))
    (prev_alerts : gmap string bool) : option (bool * gmap string bool * string) :=
  match check_alerts_lines force metrics prev_alerts with
  | Some (send, flags, lines) => Some (send, flags, join_lines (map render_line lines))
  | None => None
  end.

Definition value_repr (v : option Q) : string :=
  match v with
  | Some q => float_repr q
  | None => "None"
  end.

(** [str(metrics)] *)
Definition metrics_repr (metrics : list (string * option Q)) : string :=
  "{" ++ String.concat ", "
           (map (fun kv => ("'" ++ fst kv ++ "': " ++ value_repr (snd kv))%string) metrics)
      ++ "}".

Definition log (msg : string) : M unit :=
  t ← now; write_log ("[Monitor] " ++ dt_seconds t ++ " - " ++ msg).

Definition send_telegram (test_mode : bool) (bot_token chat_id : pyval)
    (msg : string) : M unit :=
  if test_mode then log ("[TEST MODE] Telegram alert: " ++ msg)
  else if negb (truthy bot_token) || negb (truthy chat_id)
  then log "Telegram credentials missing. Skipping alert."
  else
    try_except
      ('(status, text) ← http_post msg;
       if negb (Z.eqb status 200) then log ("Failed to send Telegram alert: " ++ text)
       else mret tt)
      (fun e => log ("Failed to send Telegram alert: " ++ e)).

Definition default_state : MonState := mkMonState (Some []) (Some ∅) (Some None).

Definition load_state : M MonState :=
  w ← get_world; mret (default default_state (f_monitor (w_files w))).

Definition save_state (state : MonState) : M unit :=
  modify_world (fun w =>
    set_files (mkFiles (f_down_alert (w_files w)) (Some state) (f_maint (w_files w))) w).

(** The script: configuration, then [main()] on the sample that
    [get_metrics()] returned. *)
Definition main (config_file : option Config) (test_mode force : bool)
    (metrics : list (string * option Q)) : M unit :=
  config ← match config_file with
           | None => raise (SystemExit 1)
           | Some c => mret c
           end;
  let bot_token := config_get_credential config "bot_token" in
  let chat_id := config_get_credential config "chat_id" in
  _ ← now;
  state ← load_state;
  let prev_alerts := default ∅ (ms_alerts state) in
  match check_alerts force metrics prev_alerts with
  | None => raise (PyException "'>' not supported between instances of 'float' and 'NoneType'")
  | Some (send, flags, alert_msg) =>
      t ← now;
      save_state (mkMonState (Some metrics) (Some flags) (Some (Some (dt_seconds t))));;
      if send then
        send_telegram test_mode bot_token chat_id alert_msg;;
        log ("Alert sent: " ++ alert_msg)
      else log ("No thresholds exceeded. Metrics: " ++ metrics_repr metrics)
  end.

End Rendering.

End Monitor.


(** ** maintenance.py *)

Module Maintenance.

(** The four tasks; [--task] accepts their names and [all]. *)
Inductive task_name : Type := os_update | pihole_update | gravity | clear_logs.

Inductive task_arg : Type :=
| TaskAll
| TaskOne (t : task_name).

Definition name_of (t : task_name) : string :=
  match t with
  | os_update => "os_update"
  | pihole_update => "pihole_update"
  | gravity => "gravity"
  | clear_logs => "clear_logs"
  end.

(** The shell command of a task and its description for the log. *)
Definition command_of (t : task_name) : string * string :=
  match t with
  | os_update => ("sudo apt update && sudo apt upgrade -y", "OS update & upgrade")
  | pihole_update => ("sudo pihole -up", "Pi-hole update")
  | gravity => ("sudo pihole -g", "Pi-hole gravity update")
  | clear_logs => ("sudo pihole flush", "Flush Pi-hole query logs")
  end.

(** The keys of [tasks_to_run], in the order the dictionary lists them. *)
Definition tasks_to_run : list task_name :=
  [os_update; pihole_update; gravity; clear_logs].

Definition log_line (t : datetime) (msg : string) : string :=
  "[Maintenance] " ++ dt_seconds t ++ " - " ++ msg.

Definition log (msg : string) : M unit :=
  t ← now; write_log (log_line t msg).

(** [run_command]: start the shell command, copy every line of its output
    to the log and keep it stripped, wait, and classify by the exit code;
    any exception of the [try] block becomes a failed result carrying
    [str(e)]. *)
Definition run_command (cmd description : string) : M (bool * string) :=
  log ("Starting: " ++ description);;
  try_except
    (p ← spawn [cmd];
     output_lines ← for_each (p_lines p)
       (fun acc line => write_log line;; mret (acc ++ [strip line])) [];
     match p_read_error p with
     | Some e => raise (PyException e)
     | None =>
         if negb (Z.eqb (p_returncode p) 0) then
           log ("ERROR running " ++ description ++ " (exit code "
                  ++ pretty (p_returncode p) ++ ")");;
           mret (false, join_lines output_lines)
         else
           log ("Completed: " ++ description);;
           mret (true, join_lines output_lines)
     end)
    (fun e =>
       log ("Exception running " ++ description ++ ": " ++ e);;
       mret (false, e)).

(** The result of [run_command] as a function of what the process does. *)
Definition expected_result (p : proc) : bool * string :=
  match p_launch_error p, p_read_error p with
  | Some e, _ => (false, e)
  | None, Some e => (false, e)
  | None, None => (Z.eqb (p_returncode p) 0, join_lines (map strip (p_lines p)))
  end.

Definition run_task_function (t : task_name) : M (bool * string) :=
  run_command (fst (command_of t)) (snd (command_of t)).

Definition send_telegram (test_mode : bool) (msg : string) : M unit :=
  if test_mode then log ("[TEST MODE] Telegram alert: " ++ msg)
  else
    try_except
      ('(status, text) ← http_post msg;
       if negb (Z.eqb status 200) then log ("Failed to send Telegram alert: " ++ text)
       else mret tt)
      (fun e => log ("Failed to send Telegram alert: " ++ e)).

Definition load_state : M (list (string * TaskRecord)) :=
  w ← get_world; mret (default [] (f_maint (w_files w))).

Definition save_state (state : list (string * TaskRecord)) : M unit :=
  modify_world (fun w =>
    set_files (mkFiles (f_down_alert (w_files w)) (f_monitor (w_files w)) (Some state)) w).

(** The task runner: [results] after the dispatch on [--task]. *)
Definition run_tasks (task : task_arg) : M (list (string * (bool * string))) :=
  match task with
  | TaskAll =>
      for_each tasks_to_run
        (fun results t =>
           r ← run_task_function t;
           mret (dict_set results (name_of t) r))
        []
  | TaskOne t =>
      r ← run_task_function t;
      mret (dict_set [] (name_of t) r)
  end.

(** The loop that copies the results into the state, stamping each one. *)
Definition update_state (results : list (string * (bool * string)))
    (state : list (string * TaskRecord)) : M (list (string * TaskRecord)) :=
  for_each results
    (fun state item =>
       t ← now;
       mret (dict_set state (fst item)
               (mkTaskRecord (dt_iso t) (fst (snd item)) (snd (snd item)))))
    state.

Definition summary_line (item : string * (bool * string)) : string :=
  fst item ++ ": " ++ (if fst (snd item) then "✅ Success" else "❌ Failed").

Definition summary_lines (results : list (string * (bool * string))) : list string :=
  map summary_line results.

(** The text of the summary, given the reading of the clock it shows. *)
Definition summary_msg (t : datetime) (results : list (string * (bool * string))) : string :=
  "Maintenance Summary (" ++ dt_seconds t ++ "):" ++ newline
    ++ join_lines (summary_lines results).

(** [TEST_MODE] after the credential check. *)
Definition effective_test_mode (config : Config) (test : bool) : bool :=
  if negb (truthy (config_get_credential config "bot_token"))
     || negb (truthy (config_get_credential config "chat_id"))
  then true else test.

(** The results the dispatch loop builds over a list of tasks, as a
    function of the environment: each command is answered according to
    the commands launched before it. *)
Fixpoint expected_results (env : list (list string) -> list string -> proc)
    (history : list (list string)) (results : list (string * (bool * string)))
    (tasks : list task_name) : list (string * (bool * string)) :=
  match tasks with
  | [] => results
  | t :: rest =>
      expected_results env (history ++ [[fst (command_of t)]])
        (dict_set results (name_of t) (expected_result (env history [fst (command_of t)])))
        rest
  end.

(** [results] after the dispatch, and the commands launched for it. *)
Definition task_results (w : World) (task : task_arg) : list (string * (bool * string)) :=
  match task with
  | TaskAll => expected_results (w_env w) (w_history w) [] tasks_to_run
  | TaskOne t => [(name_of t, expected_result (w_env w (w_history w) [fst (command_of t)]))]
  end.

Definition task_commands (task : task_arg) : list (list string) :=
  match task with
  | TaskAll => map (fun t => [fst (command_of t)]) tasks_to_run
  | TaskOne t => [[fst (command_of t)]]
  end.

(** Whether a summary line reports a failure. *)
Definition reports_failure (line : string) : bool :=
  match index 0 "❌ Failed" line with
  | Some _ => true
  | None => false
  end.

(** The script.  Without a configuration file it exits; without a bot
    token or a chat id it warns and switches to test mode. *)
Definition main (config_file : option Config) (task : task_arg) (test : bool) : M unit :=
  config ← match config_file with
           | None => raise (SystemExit 1)
           | Some c => mret c
           end;
  let test_mode := effective_test_mode config test in
  _ ← now;
  state ← load_state;
  results ← run_tasks task;
  state' ← update_state results state;
  save_state state';;
  t ← now;
  send_telegram test_mode (summary_msg t results);;
  log "=== Maintenance Module Finished ===".

End Maintenance.

(** ** monitor_bot.py *)

Module MonitorBot.

(** The paths the bot resolves from the configuration and passes on the
    command lines it builds. *)
Record Settings : Type := mkSettings {
  VENV_PYTHON : string;
  MONITOR_SCRIPT : string;
  MAINT_SCRIPT : string;
  CONFIG_FILE : string
}.

(** The start of the module: the configuration file must exist and hold a
    bot token; the result is the token.  The checks that follow in the
    script, on the paths of the scripts and of the interpreter, are not
    part of the model. *)
Definition startup (config_file : option Config) : M pyval :=
  match config_file with
  | None => raise (PyException "Config file not found")
  | Some config =>
      let bot_token := config_get_credential config "bot_token" in
      if negb (truthy bot_token)
      then raise (PyException "Telegram bot token missing in config.json")
      else mret bot_token
  end.

(** [update.message.reply_text(text)]: one message to the operator. *)
Definition send_reply (text : string) : M unit :=
  modify_world (fun w => set_replies (w_replies w ++ [text]) w).

(** [run_live_check]: [monitor.py --force] as a child process; [True] only
    when it could be started, read and exited with code 0. *)
Definition live_check_argv (s : Settings) : list string :=
  [VENV_PYTHON s; MONITOR_SCRIPT s; "--config"; CONFIG_FILE s; "--force"].

Definition run_live_check (s : Settings) : M bool :=
  try_except
    ('(_, _, rc) ← subprocess_run (live_check_argv s);
     if negb (Z.eqb rc 0) then mret false else mret true)
    (fun _ => mret false).

Definition empty_state : MonState := mkMonState None None None.

Definition load_monitor_state : M MonState :=
  w ← get_world; mret (default empty_state (f_monitor (w_files w))).

(** [not state] on the loaded dictionary. *)
Definition state_is_empty (state : MonState) : bool :=
  match ms_metrics state, ms_alerts state, ms_last_check state with
  | None, None, None => true
  | _, _, _ => false
  end.

Definition msg_stale : string :=
  "⚠️ Failed to perform live check. Using last saved metrics.".
Definition msg_no_state : string := "No monitor state available yet.".

Section Rendering.

Variable float_repr : Q -> string.

(** [metrics.get(key, 'N/A')] inside the f-string. *)
Definition metric_field (metrics : list (string * option Q)) (key : string) : string :=
  match dict_get metrics key with
  | Some (Some q) => float_repr q
  | Some None => "None"
  | None => "N/A"
  end.

Definition format_metrics (state : MonState) : string :=
  let metrics := default [] (ms_metrics state) in
  let last_check :=
    match ms_last_check state with
    | Some (Some s) => s
    | Some None => "None"
    | None => "N/A"
    end in
  "📊 Current System Metrics (Last checked: " ++ last_check ++ ")" ++ newline
  ++ "CPU: " ++ metric_field metrics "cpu" ++ "%" ++ newline
  ++ "RAM: " ++ metric_field metrics "ram" ++ "%" ++ newline
  ++ "Disk: " ++ metric_field metrics "disk" ++ "%" ++ newline
  ++ "Temp: " ++ metric_field metrics "temp" ++ "°C".

Definition status_command (s : Settings) : M unit :=
  ok ← run_live_check s;
  (if negb ok then send_reply msg_stale else mret tt);;
  state ← load_monitor_state;
  if state_is_empty state then send_reply msg_no_state
  else send_reply (format_metrics state).

End Rendering.

(** [log_task]: the message goes to a log file named after the task and
    the time; the name is returned. *)
Definition log_task (task_name message : string) : M string :=
  t ← now;
  write_log message;;
  mret (task_name ++ "_" ++ dt_stamp t ++ ".log")%string.

Definition load_maint_state : M (list (string * TaskRecord)) :=
  w ← get_world; mret (default [] (f_maint (w_files w))).

Definition save_maint_state (task_name : string) (ok : bool) (out : string) : M unit :=
  state ← load_maint_state;
  t ← now;
  let state' := dict_set state task_name (mkTaskRecord (dt_iso t) ok out) in
  modify_world (fun w =>
    set_files (mkFiles (f_down_alert (w_files w)) (f_monitor (w_files w)) (Some state')) w).

(** The result of [run_task], without the log file name, as a function
    of what the child process does. *)
Definition expected_task_result (p : proc) : bool * string :=
  match p_launch_error p, p_read_error p with
  | Some e, _ => (false, e)
  | None, Some e => (false, e)
  | None, None =>
      (Z.eqb (p_returncode p) 0,
       (strip (String.concat "" (p_lines p))
          ++ (if negb (String.eqb (p_stderr p) "") then newline ++ strip (p_stderr p)
              else ""))%string)
  end.

(** [run_task]: [maintenance.py --task task] as a child process. *)
Definition run_task (s : Settings) (task : string) : M (bool * string * string) :=
  try_except
    ('(out, err, rc) ← subprocess_run
       [VENV_PYTHON s; MAINT_SCRIPT s; "--task"; task; "--config"; CONFIG_FILE s];
     let output :=
       (strip out ++ (if negb (String.eqb err "") then newline ++ strip err else ""))%string in
     let ok := Z.eqb rc 0 in
     log_file ← log_task task output;
     save_maint_state task ok output;;
     mret (ok, output, log_file))
    (fun e =>
       log_file ← log_task task e;
       save_maint_state task false e;;
       mret (false, e, log_file)).

End MonitorBot.

(** ** An example host *)

(** A host with no state files, whose external commands print two lines
    and succeed, except the Pi-hole update, which prints one line and
    exits with code 1; the messaging API answers 200. *)
Module Example.

Definition clock (n : nat) : datetime :=
  mkDatetime ("2024-05-01T03:00:0" ++ pretty n) "2024-05-01"
             ("2024-05-01 03:00:0" ++ pretty n) ("2024-05-01_03000" ++ pretty n).

Definition proc_ok : proc :=
  mkProc None [("Reading lists " ++ newline)%string; (" done" ++ newline)%string]
         None "" 0 (fun f => f).

Definition proc_failing : proc :=
  mkProc None [("no network" ++ newline)%string] None "" 1 (fun f => f).

Definition env (history : list (list string)) (argv : list string) : proc :=
  if decide (argv = ["sudo pihole -up"]) then proc_failing else proc_ok.

Definition host : World :=
  mkWorld env [] clock 0 (fun _ => HttpResponse 200 "ok") []
          (mkFiles None None None) [] [].

(** A configuration without a ["telegram"] object, and one with both
    credentials. *)
Definition config_without_credentials : Config := mkConfig None.

Definition config_with_credentials : Config :=
  mkConfig (Some (<["bot_token" := PStr "123:abc"]> (<["chat_id" := PInt 42]> ∅))).

(** A persisted snapshot, and a host that has it on disk but on which no
    process can be started. *)
Definition snapshot : MonState :=
  mkMonState (Some [("cpu", Some (41#1)); ("ram", Some (41#1)); ("disk", Some (41#1));
                    ("temp", None)])
             (Some ∅) (Some (Some "2024-05-01 02:55:00")).

Definition proc_unlaunchable : proc :=
  mkProc (Some "[Errno 2] No such file or directory") [] None "" 0 (fun f => f).

Definition host_offline : World :=
  mkWorld (fun _ _ => proc_unlaunchable) [] clock 0 (fun _ => HttpFailure "unreachable") []
          (mkFiles None (Some snapshot) None) [] [].

Definition settings : MonitorBot.Settings :=
  MonitorBot.mkSettings "venv/bin/python" "monitor/scripts/monitor.py"
    "maintenance/scripts/maintenance.py" "setup/config.json".

End Example.

(** ** Observations and transitions *)

(** What [check_pihole] answers for a given behaviour of [systemctl]: the
    stripped standard output is compared with ["active"]; the exit code is
    not looked at; a probe that cannot be started or read counts as
    down. *)
Definition pihole_observation (p : proc) : bool :=
  match p_launch_error p, p_read_error p with
  | None, None => String.eqb (strip (String.concat "" (p_lines p))) "active"
  | _, _ => false
  end.

(** What [check_internet] answers for a given behaviour of [ping]: the
    exit code decides. *)
Definition internet_observation (p : proc) : bool :=
  match p_launch_error p, p_read_error p with
  | None, None => Z.eqb (p_returncode p) 0
  | _, _ => false
  end.

Definition pihole_argv : list string := ["systemctl"; "is-active"; "pihole-FTL"].
Definition ping_argv : list string := ["ping"; "-c"; "1"; "-W"; "2"; "1.1.1.1"].

(** The observation a run of [down_alert.py] makes on a host: the service
    probe first, the connectivity probe after it. *)
Definition observation (w : World) : bool * bool :=
  (pihole_observation (w_env w (w_history w) pihole_argv),
   internet_observation (w_env w (w_history w ++ [pihole_argv]) ping_argv)).

(** Number of positions at which a sequence of booleans differs from the
    value before it, [prev] being the value before the first. *)
Fixpoint changes (prev : bool) (l : list bool) : nat :=
  match l with
  | [] => 0
  | b :: l' => (if Bool.eqb prev b then 0 else 1) + changes b l'
  end.

(** Total of a list of counts. *)
Definition total (l : list nat) : nat := fold_right Nat.add 0 l.

(** ** Samples compared with the sample before *)

(** Some metric is breached in [s'] that was not breached in [s]. *)
Definition new_breach (s s' : list (string * option Q)) : bool :=
  existsb (fun item => Monitor.item_breached item && negb (Monitor.breached s (fst item))) s'.

(** The pairwise comparison along a sequence of samples that follows the
    sample [s]. *)
Fixpoint later_notifications (s : list (string * option Q))
    (rest : list (list (string * option Q))) : list bool :=
  match rest with
  | [] => []
  | s' :: rest' => new_breach s s' :: later_notifications s' rest'
  end.

(** ** What a script wrote to the log *)

(** Between [w] and [w'] the lines [lines] were appended to the log and
    the clock was read [reads] times. *)
Record logged (w w' : World) (lines : list string) (reads : nat) : Prop := mkLogged {
  lg_log : w_log w' = w_log w ++ lines;
  lg_ticks : w_ticks w' = reads + w_ticks w;
  lg_clock : w_clock w' = w_clock w
}.

(** The last line [run_command] logs for a command, given what the process
    did. *)
Definition run_command_verdict (description : string) (p : proc) : string :=
  match p_launch_error p, p_read_error p with
  | Some e, _ => "Exception running " ++ description ++ ": " ++ e
  | None, Some e => "Exception running " ++ description ++ ": " ++ e
  | None, None =>
      if Z.eqb (p_returncode p) 0 then "Completed: " ++ description
      else "ERROR running " ++ description ++ " (exit code "
             ++ pretty (p_returncode p) ++ ")"
  end.

(** The log line a failed delivery leaves, if any, given the answer of the
    messaging API: a response other than 200 and an exception are logged
    with their text. *)
Definition delivery_failure (r : http_result) : option string :=
  match r with
  | HttpResponse status text =>
      if Z.eqb status 200 then None
      else Some ("Failed to send Telegram alert: " ++ text)%string
  | HttpFailure e => Some ("Failed to send Telegram alert: " ++ e)%string
  end.

(** ** monitor_bot.py: the maintenance handlers *)

Module BotHandlers.
Import MonitorBot.

Definition msg_no_history : string := "No maintenance history found.".

(** One line of the history: the task, its last result and the time of
    its last run. *)
Definition status_line (item : string * TaskRecord) : string :=
  fst item ++ ": " ++ (if success (snd item) then "✅ Success" else "❌ Failed")
    ++ " (Last run: " ++ last_run (snd item) ++ ")".

(** [maintenance_status]: the records of the state file, one line each, in
    the order of the file; a fixed text when there is none. *)
Definition maintenance_status : M unit :=
  state ← load_maint_state;
  match state with
  | [] => send_reply msg_no_history
  | _ => send_reply (join_lines (map status_line state))
  end.

(** The tasks the button "All Tasks" runs, in the order of the handler. *)
Definition all_tasks : list string :=
  ["os_update"; "gravity"; "pihole_update"; "clear_logs"].

Definition mark (ok : bool) : string := if ok then "✅" else "❌".

(** [(output[:4000] + '...') if len(output) > 4000 else output], a
    character being a byte here. *)
Definition truncate (output : string) : string :=
  if Nat.ltb 4000 (String.length output)
  then substring 0 4000 output ++ "..."
  else output.

Definition summary_entry (r : string * bool * string) : string :=
  fst (fst r) ++ ": " ++ mark (snd (fst r)) ++ " (Log: " ++ snd r ++ ")".

(** The command line [run_task] builds for a task. *)
Definition task_argv (s : Settings) (task : string) : list string :=
  [VENV_PYTHON s; MAINT_SCRIPT s; "--task"; task; "--config"; CONFIG_FILE s].

(** [maintenance_callback] for the button whose payload is [task]: the
    menu message is replaced by "Running ...", recorded here as one more
    message to the operator; then either the four tasks are run one after
    the other and summarised in one message, or the one task is run and
    reported with its output cut to 4000 characters. *)
Definition maintenance_callback (s : Settings) (task : string) : M unit :=
  send_reply ("Running " ++ task ++ "...");;
  if String.eqb task "all" then
    results ← for_each all_tasks
      (fun results t =>
         '(ok, _, log_file) ← run_task s t;
         mret (results ++ [(t, ok, log_file)]))
      [];
    send_reply ("All tasks completed:" ++ newline
                  ++ join_lines (map summary_entry results))
  else
    '(ok, out, log_file) ← run_task s task;
    send_reply (task ++ ": " ++ mark ok ++ newline ++ "Log: " ++ log_file ++ newline
                  ++ "Output:" ++ newline ++ truncate out).

(** The verdicts [run_task] returns for a list of tasks run one after the
    other, as a function of the environment: each child is answered
    according to the commands launched before it. *)
Fixpoint child_verdicts (env : list (list string) -> list string -> proc)
    (history : list (list string)) (s : Settings) (tasks : list string) : list bool :=
  match tasks with
  | [] => []
  | t :: rest =>
      fst (expected_task_result (env history (task_argv s t)))
        :: child_verdicts env (history ++ [task_argv s t]) s rest
  end.

(** The exit status of a script, from the way its top level ends: 0 at
    the end of the file, the argument of [sys.exit], 1 after an uncaught
    exception. *)
Definition exit_status (r : outcome unit) : Z :=
  match r with
  | Ok _ => 0%Z
  | Raise (SystemExit code) => code
  | Raise (PyException _) => 1%Z
  end.

(** The state files a child process leaves when it was started, and the
    files as they were when it was not. *)
Definition files_after (p : proc) (files : Files) : Files :=
  match p_launch_error p with
  | Some _ => files
  | None => p_touch p files
  end.

(** What [run_live_check] answers for a given behaviour of the child. *)
Definition live_check_ok (p : proc) : bool :=
  match p_launch_error p, p_read_error p with
  | None, None => Z.eqb (p_returncode p) 0
  | _, _ => false
  end.

End BotHandlers.

(** ** The task vocabulary *)

Module Vocabulary.

(** The [choices] of [--task] in [maintenance.py]. *)
Definition choices : list string :=
  ["all"; "os_update"; "gravity"; "pihole_update"; "clear_logs"].

(** What [--task arg] becomes: [argparse] rejects an argument that is not
    among the choices; ["all"] selects every task; any other choice is
    looked up in [tasks_to_run]. *)
Definition parse_task (arg : string) : option Maintenance.task_arg :=
  if negb (existsb (String.eqb arg) choices) then None
  else if String.eqb arg "all" then Some Maintenance.TaskAll
  else
    match filter (fun t => Maintenance.name_of t = arg) Maintenance.tasks_to_run with
    | t :: _ => Some (Maintenance.TaskOne t)
    | [] => None
    end.

(** The buttons of [maintenance_command]: label and payload. *)
Definition keyboard : list (string * string) :=
  [("All Tasks", "all"); ("OS Updates", "os_update"); ("Gravity Update", "gravity");
   ("Pi-hole Update", "pihole_update"); ("Clear Logs", "clear_logs")].

(** [maintenance_command]: the menu, recorded as its text. *)
Definition maintenance_command : M unit :=
  MonitorBot.send_reply "Choose a maintenance task:".

End Vocabulary.

(** ** The scripts as children of the bot *)

(** Hosts on which the child processes of the bot behave as the models of
    [maintenance.py] and [monitor.py] run on the example host: the exit
    status and the state files they leave are those of the model. *)
Module Composite.

Definition maintenance_child : outcome unit * World :=
  Maintenance.main (Some Example.config_with_credentials)
    (Maintenance.TaskOne Maintenance.pihole_update) false Example.host.

Definition host_running_maintenance : World :=
  mkWorld
    (fun _ _ =>
       mkProc None [("[Maintenance] ..." ++ newline)%string] None ""
              (BotHandlers.exit_status (fst maintenance_child))
              (fun _ => w_files (snd maintenance_child)))
    [] Example.clock 0 (fun _ => HttpResponse 200 "ok") []
    (w_files Example.host) [] [].

Definition sample : list (string * option Q) :=
  [("cpu", Some (183#2)); ("ram", Some (40#1)); ("disk", Some (55#1)); ("temp", None)].

Definition monitor_child : outcome unit * World :=
  Monitor.main (fun _ => "41.0") (Some Example.config_with_credentials) false true
    sample Example.host.

Definition host_running_monitor : World :=
  mkWorld
    (fun _ _ =>
       mkProc None [] None "" (BotHandlers.exit_status (fst monitor_child))
              (fun _ => w_files (snd monitor_child)))
    [] Example.clock 0 (fun _ => HttpResponse 200 "ok") []
    (w_files Example.host) [] [].

End Composite.

(** ** Proof automation *)

(** Unfolding the monad operations and the world updates of a script run
    on a given world. *)
Ltac run_monad :=
  unfold mbind, M_bind, mret, M_ret, get_world, modify_world, MonitorBot.send_reply;
  cbn.

(** * Properties *)

(** ** down_alert.py: transitions *)

Section DownAlertFacts.
Import DownAlert.

Lemma py_get_insert_eq (d : gmap string pyval) k v : py_get (<[k := v]> d) k = v.
Proof. unfold py_get. by rewrite lookup_insert_eq. Qed.

Lemma py_get_insert_ne (d : gmap string pyval) k k' v :
  k ≠ k' → py_get (<[k := v]> d) k' = py_get d k'.
Proof. intros H. unfold py_get. by rewrite lookup_insert_ne. Qed.

Lemma py_ne_label_refl b : py_ne (PStr (label b)) (PStr (label b)) = false.
Proof. by destruct b. Qed.

Lemma py_ne_bool_refl b : py_ne (PBool b) (PBool b) = false.
Proof. by destruct b. Qed.

Lemma detect_alerts state obs :
  fst (detect state obs) =
    (if service_differs state obs
     then [if fst obs then msg_pihole_up else msg_pihole_down] else [])
    ++ (if internet_differs state obs
        then [if snd obs then msg_internet_restored else msg_internet_lost] else []).
Proof.
  destruct obs as [p i]. unfold detect, service_differs, internet_differs. simpl.
  destruct (py_ne (py_get state "pihole_status") (PStr (label p))) eqn:Hp; simpl.
  - rewrite py_get_insert_ne by done.
    by destruct (py_ne (py_get state "internet") (PBool i)).
  - by destruct (py_ne (py_get state "internet") (PBool i)).
Qed.

Lemma detect_service_settled state obs :
  service_differs (snd (detect state obs)) obs = false.
Proof.
  destruct obs as [p i]. unfold detect, service_differs. simpl.
  destruct (py_ne (py_get state "pihole_status") (PStr (label p))) eqn:Hp; simpl;
    destruct (py_ne _ (PBool i)) eqn:Hi; simpl;
    rewrite ?(py_get_insert_ne _ "internet") by done;
    rewrite ?py_get_insert_eq; auto using py_ne_label_refl.
Qed.

Lemma detect_internet_settled state obs :
  internet_differs (snd (detect state obs)) obs = false.
Proof.
  destruct obs as [p i]. unfold detect, internet_differs. simpl.
  destruct (py_ne (py_get state "pihole_status") (PStr (label p))) eqn:Hp; simpl.
  - destruct (py_ne (py_get (<["pihole_status":=PStr (label p)]> state) "internet") (PBool i))
      eqn:Hi; simpl.
    + rewrite py_get_insert_eq. apply py_ne_bool_refl.
    + exact Hi.
  - destruct (py_ne (py_get state "internet") (PBool i)) eqn:Hi; simpl.
    + rewrite py_get_insert_eq. apply py_ne_bool_refl.
    + exact Hi.
Qed.


Lemma service_alerts_detect state obs :
  service_alerts (fst (detect state obs)) = if service_differs state obs then 1 else 0.
Proof.
  rewrite detect_alerts.
  destruct (service_differs state obs), (internet_differs state obs), obs as [[] []];
    reflexivity.
Qed.

Lemma internet_alerts_detect state obs :
  internet_alerts (fst (detect state obs)) = if internet_differs state obs then 1 else 0.
Proof.
  rewrite detect_alerts.
  destruct (service_differs state obs), (internet_differs state obs), obs as [[] []];
    reflexivity.
Qed.

Lemma run_once_detect file obs :
  run_once file obs = (fst (detect (load_state file) obs),
                       Some (snd (detect (load_state file) obs))).
Proof. unfold run_once. by destruct (detect (load_state file) obs). Qed.

Lemma runs_snoc file pre obs :
  runs file (pre ++ [obs]) = runs file pre ++ [fst (run_once (file_after file pre) obs)].
Proof.
  revert file. induction pre as [|o pre IH]; intros file; simpl.
  - by destruct (run_once file obs).
  - destruct (run_once file o) as [alerts file'] eqn:E. simpl. by rewrite IH.
Qed.

Lemma file_after_snoc file pre obs :
  file_after file (pre ++ [obs]) = snd (run_once (file_after file pre) obs).
Proof. revert file. induction pre as [|o pre IH]; intros file; simpl; [done | apply IH]. Qed.

(** A state that already agrees with the observation is left alone. *)
Lemma detect_settled state obs :
  service_differs state obs = false → internet_differs state obs = false →
  detect state obs = ([], state).
Proof.
  destruct obs as [p i]. unfold service_differs, internet_differs, detect. simpl.
  intros -> . simpl. by intros ->.
Qed.

Lemma runs_settled state obs n :
  service_differs state obs = false → internet_differs state obs = false →
  runs (Some state) (replicate n obs) = replicate n [].
Proof.
  intros Hs Hi. induction n as [|n IH]; simpl; [done|].
  rewrite run_once_detect. simpl. rewrite detect_settled by done. simpl. by rewrite IH.
Qed.

Lemma runs_repeat file obs n :
  runs file (replicate (S n) obs) = fst (run_once file obs) :: replicate n [].
Proof.
  simpl. rewrite run_once_detect. f_equal.
  apply runs_settled; [apply detect_service_settled | apply detect_internet_settled].
Qed.

Lemma map_replicate {A B : Type} (f : A → B) (x : A) (n : nat) :
  map f (replicate n x) = replicate n (f x).
Proof. induction n as [|n IH]; simpl; [done | by rewrite IH]. Qed.

Lemma py_eq_str v s : py_eq v (PStr s) = true → v = PStr s.
Proof.
  destruct v; simpl; try discriminate. intros H. f_equal. by apply String.eqb_eq.
Qed.

Lemma py_ne_bool_change v b b' :
  py_ne v (PBool b) = false → py_ne v (PBool b') = negb (Bool.eqb b b').
Proof.
  unfold py_ne. intros H. apply negb_false_iff in H. f_equal.
  destruct v as [|x|z|s]; simpl in *; try discriminate.
  - apply Bool.eqb_prop in H. by subst.
  - apply Z.eqb_eq in H. subst. by destruct b, b'.
Qed.

Lemma service_differs_next state o1 o2 :
  service_differs (snd (detect state o1)) o2 = negb (Bool.eqb (fst o1) (fst o2)).
Proof.
  pose proof (detect_service_settled state o1) as H.
  unfold service_differs, py_ne in *. apply negb_false_iff, py_eq_str in H.
  rewrite H. by destruct (fst o1), (fst o2).
Qed.

Lemma internet_differs_next state o1 o2 :
  internet_differs (snd (detect state o1)) o2 = negb (Bool.eqb (snd o1) (snd o2)).
Proof. apply py_ne_bool_change, detect_internet_settled. Qed.

(** C1. For any persisted state and any sequence of observations, a run
    emits an alert for a domain exactly when the status derived from its
    observation differs from the status the preceding run persisted (one
    alert if it differs, none otherwise), where on a stored label or a
    stored boolean "differs" is plain inequality; from the second run on
    this means exactly when the observation changed; and repeating one
    observation [S n] times gives the alert of the first run, if any, and
    none in the [n] runs that follow. *)
Theorem no_duplicate_alert :
  (∀ state s obs,
     service_differs (<["pihole_status" := PStr s]> state) obs
       = negb (String.eqb s (label (fst obs))))
  ∧ (∀ state b obs,
       internet_differs (<["internet" := PBool b]> state) obs
         = negb (Bool.eqb b (snd obs)))
  ∧ (∀ file obs,
     service_alerts (fst (run_once file obs))
       = (if service_differs (load_state file) obs then 1 else 0)
     ∧ internet_alerts (fst (run_once file obs))
       = (if internet_differs (load_state file) obs then 1 else 0))
  ∧ (∀ file pre obs,
       runs file (pre ++ [obs])
         = runs file pre ++ [fst (run_once (file_after file pre) obs)])
  ∧ (∀ file pre o1 o2,
       service_alerts (fst (run_once (file_after file (pre ++ [o1])) o2))
         = (if Bool.eqb (fst o1) (fst o2) then 0 else 1)
       ∧ internet_alerts (fst (run_once (file_after file (pre ++ [o1])) o2))
         = (if Bool.eqb (snd o1) (snd o2) then 0 else 1))
  ∧ (∀ file obs n,
       map service_alerts (runs file (replicate (S n) obs))
         = (if service_differs (load_state file) obs then 1 else 0) :: replicate n 0
       ∧ map internet_alerts (runs file (replicate (S n) obs))
         = (if internet_differs (load_state file) obs then 1 else 0) :: replicate n 0).
Proof.
  repeat split.
  - intros state s obs. unfold service_differs. by rewrite py_get_insert_eq.
  - intros state b obs. unfold internet_differs. by rewrite py_get_insert_eq.
  - rewrite run_once_detect. apply service_alerts_detect.
  - rewrite run_once_detect. apply internet_alerts_detect.
  - apply runs_snoc.
  - rewrite file_after_snoc, !run_once_detect. simpl.
    rewrite service_alerts_detect, service_differs_next.
    by destruct (Bool.eqb (fst o1) (fst o2)).
  - rewrite file_after_snoc, !run_once_detect. simpl.
    rewrite internet_alerts_detect, internet_differs_next.
    by destruct (Bool.eqb (snd o1) (snd o2)).
  - rewrite runs_repeat. simpl. rewrite run_once_detect. simpl.
    rewrite service_alerts_detect. f_equal. apply map_replicate.
  - rewrite runs_repeat. simpl. rewrite run_once_detect. simpl.
    rewrite internet_alerts_detect. f_equal. apply map_replicate.
Qed.

(** C4. Without a state file the state is the default, with the internet
    reachable and the service status unknown; the first run then raises no
    internet alert when the internet is up, and exactly one service alert
    whatever the service's state. *)
Theorem first_run_suppression :
  load_state None = default_state
  ∧ default_state !! "internet" = Some (PBool true)
  ∧ default_state !! "pihole_status" = Some (PStr "unknown")
  ∧ (∀ current_pihole, internet_alerts (fst (run_once None (current_pihole, true))) = 0)
  ∧ (∀ current_pihole current_internet,
       service_alerts (fst (run_once None (current_pihole, current_internet))) = 1).
Proof.
  repeat split.
  - intros []; reflexivity.
  - intros [] []; reflexivity.
Qed.

End DownAlertFacts.

(** ** monitor.py: threshold evaluation *)

Section MonitorFacts.
Import Monitor.

Lemma check_step_known force prev st item :
  (∀ v, snd item = Some v → is_Some (dict_get THRESHOLDS (fst item))) →
  check_step force prev st item =
    Some (mkLoop (<[fst item := item_breached item]> (alerts st))
                 (send_alert st || triggers force prev item)
                 (msg_lines st ++ breach_line item)).
Proof.
  destruct item as [k [v|]]; unfold check_step, triggers, item_breached, breach_line; simpl.
  - intros H. destruct (H v eq_refl) as [t ->].
    destruct (exceeds v t); simpl.
    + by destruct (force || negb (default false (prev !! k))), (send_alert st).
    + by rewrite orb_false_r, app_nil_r.
  - intros _. by rewrite orb_false_r, app_nil_r.
Qed.

Lemma check_step_Some force prev st item st' :
  check_step force prev st item = Some st' →
  st' = mkLoop (<[fst item := item_breached item]> (alerts st))
               (send_alert st || triggers force prev item)
               (msg_lines st ++ breach_line item).
Proof.
  intros H.
  destruct item as [k [v|]].
  - destruct (dict_get THRESHOLDS k) as [t|] eqn:E.
    + rewrite check_step_known in H; [congruence|]. cbn [fst snd]. intros _ _. by rewrite E.
    + unfold check_step in H. by rewrite E in H.
  - rewrite check_step_known in H; [congruence|]. simpl. discriminate.
Qed.

Lemma check_loop_Some force prev metrics st st' :
  check_loop force prev metrics st = Some st' →
  alerts st' = insert_flags metrics (alerts st)
  ∧ send_alert st' = send_alert st || existsb (triggers force prev) metrics
  ∧ msg_lines st' = msg_lines st ++ flat_map breach_line metrics.
Proof.
  revert st. induction metrics as [|item rest IH]; intros st; simpl.
  - intros [= <-]. by rewrite orb_false_r, app_nil_r.
  - destruct (check_step force prev st item) as [st1|] eqn:E; [|discriminate].
    intros H. apply IH in H as (Ha & Hs & Hl).
    apply check_step_Some in E. subst st1. simpl in *.
    rewrite Ha, Hs, Hl. by rewrite orb_assoc, <- app_assoc.
Qed.

Lemma known_keys_cons item rest :
  known_keys (item :: rest) →
  (∀ v, snd item = Some v → is_Some (dict_get THRESHOLDS (fst item))) ∧ known_keys rest.
Proof.
  intros H. split.
  - intros v Hv. apply (H (fst item) v). destruct item; simpl in *; subst. left.
  - intros k v Hin. apply (H k v). by right.
Qed.

Lemma check_loop_total force prev metrics st :
  known_keys metrics → is_Some (check_loop force prev metrics st).
Proof.
  revert st. induction metrics as [|item rest IH]; intros st H; simpl; [eauto|].
  apply known_keys_cons in H as [Hi Hr].
  rewrite check_step_known by done. by apply IH.
Qed.

Lemma check_alerts_lines_known force metrics prev :
  known_keys metrics →
  check_alerts_lines force metrics prev =
    Some (existsb (triggers force prev) metrics,
          insert_flags metrics ∅,
          Header :: flat_map breach_line metrics).
Proof.
  intros H. unfold check_alerts_lines.
  destruct (check_loop_total force prev metrics (mkLoop ∅ false [Header]) H) as [st E].
  rewrite E. apply check_loop_Some in E as (-> & -> & ->). reflexivity.
Qed.

Lemma check_alerts_lines_Some force metrics prev send flags lines :
  check_alerts_lines force metrics prev = Some (send, flags, lines) →
  send = existsb (triggers force prev) metrics
  ∧ flags = insert_flags metrics ∅
  ∧ lines = Header :: flat_map breach_line metrics.
Proof.
  unfold check_alerts_lines.
  destruct (check_loop force prev metrics _) as [st|] eqn:E; [|discriminate].
  intros [= <- <- <-]. by apply check_loop_Some in E as (-> & -> & ->).
Qed.

(** Whether the loop raises does not depend on [force] nor on the flags. *)
Lemma check_loop_None force force' prev prev' metrics st st' :
  check_loop force prev metrics st = None → check_loop force' prev' metrics st' = None.
Proof.
  revert st st'. induction metrics as [|item rest IH]; intros st st'; simpl; [discriminate|].
  destruct item as [k [v|]].
  - destruct (dict_get THRESHOLDS k) as [t|] eqn:E.
    + rewrite !check_step_known by (cbn [fst snd]; intros _ _; by rewrite E). apply IH.
    + unfold check_step. by rewrite E.
  - rewrite !check_step_known by (simpl; discriminate). apply IH.
Qed.


(** *** Dictionary lookups on a sample *)

Lemma dict_get_elem {V : Type} (d : list (string * V)) k v :
  dict_get d k = Some v → (k, v) ∈ d.
Proof.
  induction d as [|[k' v'] d IH]; simpl; [discriminate|].
  destruct (String.eqb k' k) eqn:E.
  - apply String.eqb_eq in E. intros [= ->]. subst. left.
  - intros H. right. by apply IH.
Qed.

Lemma dict_get_None {V : Type} (d : list (string * V)) k :
  dict_get d k = None ↔ k ∉ keys d.
Proof.
  induction d as [|[k' v'] d IH]; simpl.
  - split; [intros _; apply not_elem_of_nil | done].
  - destruct (String.eqb k' k) eqn:E.
    + apply String.eqb_eq in E. subst. split; [discriminate|]. intros H. exfalso. apply H. left.
    + apply String.eqb_neq in E. rewrite IH. unfold keys. simpl.
      rewrite not_elem_of_cons. split; [intros H; split; [congruence|exact H] | intros [_ H]; exact H].
Qed.

Lemma elem_dict_get {V : Type} (d : list (string * V)) k v :
  NoDup (keys d) → (k, v) ∈ d → dict_get d k = Some v.
Proof.
  induction d as [|[k' v'] d IH]; simpl; intros Hnd Hin.
  - by apply elem_of_nil in Hin.
  - apply NoDup_cons in Hnd as [Hk Hnd].
    apply elem_of_cons in Hin as [[= -> ->]|Hin].
    + by rewrite String.eqb_refl.
    + destruct (String.eqb k' k) eqn:E; [|by apply IH].
      apply String.eqb_eq in E. subst. destruct Hk.
      apply (list_elem_of_fmap_2 fst) in Hin. exact Hin.
Qed.

Lemma insert_flags_notin metrics flags k :
  k ∉ keys metrics → insert_flags metrics flags !! k = flags !! k.
Proof.
  revert flags. induction metrics as [|[k' v'] rest IH]; intros flags; simpl; [done|].
  unfold keys. simpl. rewrite not_elem_of_cons. intros [Hne Hk].
  unfold insert_flags in *. simpl. rewrite IH by done. by rewrite lookup_insert_ne.
Qed.

Lemma insert_flags_lookup metrics flags k :
  NoDup (keys metrics) →
  insert_flags metrics flags !! k =
    match dict_get metrics k with
    | Some v => Some (item_breached (k, v))
    | None => flags !! k
    end.
Proof.
  revert flags. induction metrics as [|[k' v'] rest IH]; intros flags Hnd; simpl; [done|].
  apply NoDup_cons in Hnd as [Hk Hnd].
  unfold insert_flags in *. simpl. destruct (String.eqb k' k) eqn:E.
  - apply String.eqb_eq in E. subst.
    fold (insert_flags rest (<[k := item_breached (k, v')]> flags)).
    rewrite insert_flags_notin by done. by rewrite lookup_insert_eq.
  - apply String.eqb_neq in E. rewrite IH by done.
    destruct (dict_get rest k); [done|]. by rewrite lookup_insert_ne.
Qed.

Lemma breached_item metrics k v :
  dict_get metrics k = Some v → breached metrics k = item_breached (k, v).
Proof. unfold breached, item_breached. intros ->. simpl. by destruct v. Qed.

(** The flags an evaluation leaves are the memory of which metrics were
    breached in its sample. *)
Lemma flags_remember metrics k :
  NoDup (keys metrics) →
  default false (insert_flags metrics ∅ !! k) = breached metrics k.
Proof.
  intros Hnd. rewrite insert_flags_lookup by done.
  destruct (dict_get metrics k) as [v|] eqn:E.
  - by rewrite (breached_item _ _ v).
  - unfold breached. by rewrite E.
Qed.

Lemma breach_line_elem item l : l ∈ breach_line item →
  ∃ v t, snd item = Some v ∧ l = Breach (fst item) v t ∧ item_breached item = true.
Proof.
  unfold breach_line, item_breached. destruct (snd item) as [v|]; [|by intros ?%elem_of_nil].
  destruct (dict_get THRESHOLDS (fst item)) as [t|]; [|by intros ?%elem_of_nil].
  destruct (exceeds v t); [|by intros ?%elem_of_nil].
  intros ->%list_elem_of_singleton. eauto.
Qed.

Lemma breach_lines_elem metrics k v t :
  Breach k v t ∈ flat_map breach_line metrics → (k, Some v) ∈ metrics.
Proof.
  induction metrics as [|item rest IH]; simpl; [by intros ?%elem_of_nil|].
  intros [H|H]%elem_of_app.
  - apply breach_line_elem in H as (v' & t' & Hv & [= -> -> ->] & _).
    destruct item; simpl in *; subst. left.
  - right. by apply IH.
Qed.


(** *** Removing a key from a sample *)

Lemma without_elem k metrics item :
  item ∈ without k metrics ↔ item ∈ metrics ∧ fst item ≠ k.
Proof. unfold without. rewrite list_elem_of_filter. split; intros [H1 H2]; by split. Qed.

Lemma without_keys_NoDup k metrics : NoDup (keys metrics) → NoDup (keys (without k metrics)).
Proof.
  induction metrics as [|[k' v'] rest IH]; simpl; [done|].
  intros [Hk Hnd]%NoDup_cons. unfold without. rewrite filter_cons. simpl.
  case_decide; [|by apply IH].
  unfold keys. simpl. apply NoDup_cons. split; [|by apply IH].
  intros Hin. apply Hk. apply list_elem_of_fmap in Hin as (item & -> & Hitem).
  apply without_elem in Hitem as [Hitem _]. by apply (list_elem_of_fmap_2 fst).
Qed.

Lemma without_dict_get k metrics j :
  dict_get (without k metrics) j = if decide (j = k) then None else dict_get metrics j.
Proof.
  induction metrics as [|[k' v'] rest IH]; simpl.
  - by case_decide.
  - unfold without in *. rewrite filter_cons.
    destruct (decide (fst (k', v') ≠ k)) as [Hne|Heq]; simpl in *.
    + destruct (String.eqb k' j) eqn:E; [|done].
      apply String.eqb_eq in E. subst k'. by rewrite decide_False.
    + apply dec_stable in Heq. subst k'. rewrite IH.
      destruct (decide (j = k)) as [->|Hjk]; [done|].
      apply not_eq_sym, String.eqb_neq in Hjk. by rewrite Hjk.
Qed.

Lemma without_silent (f : string * option Q → bool) k metrics :
  (∀ item, item ∈ metrics → fst item = k → f item = false) →
  existsb f (without k metrics) = existsb f metrics.
Proof.
  induction metrics as [|item rest IH]; simpl; [done|]. intros H.
  unfold without in *. rewrite filter_cons. case_decide as Hk; simpl.
  - rewrite IH; [done|]. intros i Hi. apply H. by right.
  - rewrite (H item) by (done || left). simpl.
    apply IH. intros i Hi. apply H. by right.
Qed.

Lemma without_lines k metrics :
  (∀ item, item ∈ metrics → fst item = k → breach_line item = []) →
  flat_map breach_line (without k metrics) = flat_map breach_line metrics.
Proof.
  induction metrics as [|item rest IH]; simpl; [done|]. intros H.
  unfold without in *. rewrite filter_cons. case_decide as Hk; simpl.
  - rewrite IH; [done|]. intros i Hi. apply H. by right.
  - rewrite (H item) by (done || left). simpl.
    apply IH. intros i Hi. apply H. by right.
Qed.

Lemma without_known_keys k metrics : known_keys metrics → known_keys (without k metrics).
Proof. intros H j v [Hin _]%without_elem. by apply (H j v). Qed.

(** C10. Whatever the sample and the previous flags, [check_alerts] gives
    the same new flags (and the same message, and fails on the same
    inputs) with and without [force]: the flag reaches the notification
    decision only. *)
Theorem force_noninterference (float_repr : Q → string)
    (metrics : list (string * option Q)) (prev_alerts : gmap string bool) :
  option_map (fun r => (snd (fst r), snd r)) (check_alerts float_repr true metrics prev_alerts)
  = option_map (fun r => (snd (fst r), snd r)) (check_alerts float_repr false metrics prev_alerts).
Proof.
  unfold check_alerts.
  destruct (check_alerts_lines true metrics prev_alerts) as [[[s1 f1] l1]|] eqn:E1;
    destruct (check_alerts_lines false metrics prev_alerts) as [[[s2 f2] l2]|] eqn:E2; simpl.
  - apply check_alerts_lines_Some in E1 as (_ & -> & ->).
    by apply check_alerts_lines_Some in E2 as (_ & -> & ->).
  - unfold check_alerts_lines in *.
    destruct (check_loop false _ _ _) eqn:E; [by destruct l|].
    by rewrite (check_loop_None _ true _ prev_alerts _ _ _ E) in E1.
  - unfold check_alerts_lines in *.
    destruct (check_loop true _ _ _) eqn:E; [by destruct l|].
    by rewrite (check_loop_None _ false _ prev_alerts _ _ _ E) in E2.
  - done.
Qed.

(** C2, as the code has it.  A metric sampled as null gets the new flag
    [False] whatever its previous flag was, counts as not breached, adds no
    line to the message, and the notification decision and the message are
    those of the sample without it. *)
Theorem null_metric_flag_cleared (force : bool) (metrics : list (string * option Q))
    (prev_alerts : gmap string bool) (k : string) :
  NoDup (keys metrics) → known_keys metrics → dict_get metrics k = Some None →
  ∃ send flags lines,
    check_alerts_lines force metrics prev_alerts = Some (send, flags, lines)
    ∧ flags !! k = Some false
    ∧ breached metrics k = false
    ∧ (∀ v t, Breach k v t ∉ lines)
    ∧ check_alerts_lines force (without k metrics) prev_alerts
      = Some (send, delete k flags, lines).
Proof.
  intros Hnd Hknown Hk.
  assert (Hitem : ∀ item, item ∈ metrics → fst item = k → item = (k, None)).
  { intros [j v] Hin Hj. simpl in Hj. subst j.
    apply elem_dict_get in Hin; [|done]. congruence. }
  eexists _, _, _. split; [by apply check_alerts_lines_known|].
  split; [|split; [|split]].
  - rewrite insert_flags_lookup by done. by rewrite Hk.
  - by rewrite (breached_item _ _ None).
  - intros v t [Heq|Hin]%elem_of_cons; [discriminate|]. apply breach_lines_elem in Hin.
    apply elem_dict_get in Hin; [|done]. congruence.
  - rewrite check_alerts_lines_known by by apply without_known_keys.
    f_equal. f_equal; [f_equal|].
    + apply without_silent. by intros item Hin ->%Hitem.
    + apply map_eq. intros j.
      rewrite insert_flags_lookup by by apply without_keys_NoDup.
      rewrite without_dict_get, lookup_delete.
      rewrite insert_flags_lookup by done.
      destruct (decide (j = k)) as [->|Hne].
      * by rewrite decide_True.
      * by rewrite decide_False.
    + f_equal. apply without_lines. by intros item Hin ->%Hitem.
Qed.


Lemma null_metric_flag_cleared_witness :
  ∃ send flags lines,
    check_alerts_lines false
      [("cpu", Some (12#1)); ("ram", Some (40#1)); ("disk", Some (55#1)); ("temp", None)]
      (<["temp" := true]> ∅) = Some (send, flags, lines)
    ∧ flags !! "temp" = Some false
    ∧ breached
        [("cpu", Some (12#1)); ("ram", Some (40#1)); ("disk", Some (55#1)); ("temp", None)]
        "temp" = false
    ∧ (∀ v t, Breach "temp" v t ∉ lines)
    ∧ check_alerts_lines false
        (without "temp"
           [("cpu", Some (12#1)); ("ram", Some (40#1)); ("disk", Some (55#1)); ("temp", None)])
        (<["temp" := true]> ∅)
      = Some (send, delete "temp" flags, lines).
Proof.
  apply (null_metric_flag_cleared false
           [("cpu", Some (12#1)); ("ram", Some (40#1)); ("disk", Some (55#1)); ("temp", None)]
           (<["temp" := true]> ∅) "temp").
  - unfold keys. simpl. compute_done.
  - intros k v Hin. apply list_elem_of_In in Hin. simpl in Hin.
    destruct Hin as [[= <- _]|[[= <- _]|[[= <- _]|[[=]|[]]]]]; vm_compute; eauto.
  - reflexivity.
Defined.

(** C2 as the specification states it does not hold: the temperature
    flag was set, the sensor then gives no reading, and the evaluation
    clears the flag. *)
Lemma null_metric_flag_kept_counterexample :
  (<["temp" := true]> ∅ : gmap string bool) !! "temp" = Some true
  ∧ dict_get
      [("cpu", Some (12#1)); ("ram", Some (40#1)); ("disk", Some (55#1)); ("temp", None)]
      "temp" = Some None
  ∧ option_map (fun r => snd (fst r) !! "temp")
      (check_alerts_lines false
         [("cpu", Some (12#1)); ("ram", Some (40#1)); ("disk", Some (55#1)); ("temp", None)]
         (<["temp" := true]> ∅))
    = Some (Some false).
Proof. repeat split. Qed.

(** *** Hysteresis *)

Lemma breached_elem metrics k :
  breached metrics k = true → ∃ v, (k, Some v) ∈ metrics ∧ item_breached (k, Some v) = true.
Proof.
  unfold breached. destruct (dict_get metrics k) as [[v|]|] eqn:E; try discriminate.
  intros H. exists v. split; [by apply dict_get_elem|]. exact H.
Qed.

Lemma existsb_intro {A : Type} (f : A → bool) (l : list A) x :
  x ∈ l → f x = true → existsb f l = true.
Proof. intros Hin Hf. apply existsb_exists. exists x. by rewrite <- list_elem_of_In. Qed.

Lemma forced_notifies prev metrics m :
  breached metrics m = true → existsb (triggers true prev) metrics = true.
Proof.
  intros (v & Hin & Hb)%breached_elem. apply (existsb_intro _ _ _ Hin).
  unfold triggers. by rewrite Hb.
Qed.

Lemma first_breach_notifies prev metrics m :
  breached metrics m = true → default false (prev !! m) = false →
  existsb (triggers false prev) metrics = true.
Proof.
  intros (v & Hin & Hb)%breached_elem Hprev. apply (existsb_intro _ _ _ Hin).
  unfold triggers. rewrite Hb. simpl. by rewrite Hprev.
Qed.

Lemma sustained_silent s s' :
  NoDup (keys s) → NoDup (keys s') → no_new_breach s s' →
  existsb (triggers false (insert_flags s ∅)) s' = false.
Proof.
  intros Hs Hs' Hnew. apply not_true_is_false. intros H.
  apply existsb_exists in H as ([k v] & Hin & Htr).
  apply list_elem_of_In in Hin. unfold triggers in Htr. simpl in Htr.
  apply andb_true_iff in Htr as [Hb Hflag].
  rewrite flags_remember in Hflag by done.
  rewrite <- (breached_item s' k v) in Hb by by apply elem_dict_get.
  apply Hnew in Hb. by rewrite Hb in Hflag.
Qed.

Lemma evaluations_forced m prev samples :
  Forall (fun x => NoDup (keys x) ∧ known_keys x) samples →
  Forall (fun x => breached x m = true) samples →
  evaluations true prev samples = Some (replicate (length samples) true).
Proof.
  revert prev. induction samples as [|s rest IH]; intros prev Hwf Hb; simpl; [done|].
  apply Forall_cons in Hwf as [[Hnd Hk] Hwf]. apply Forall_cons in Hb as [Hs Hb].
  rewrite check_alerts_lines_known by done.
  rewrite IH by done. by rewrite (forced_notifies _ _ m).
Qed.

Lemma evaluations_sustained s rest :
  Forall (fun x => NoDup (keys x) ∧ known_keys x) (s :: rest) →
  sustained s rest →
  evaluations false (insert_flags s ∅) rest = Some (replicate (length rest) false).
Proof.
  revert s. induction rest as [|s' rest IH]; intros s Hwf Hsus; simpl; [done|].
  apply Forall_cons in Hwf as [[Hnd Hk] Hwf]. destruct Hsus as [Hnew Hsus].
  destruct (Forall_cons_1 _ _ _ Hwf) as [[Hnd' Hk'] _].
  rewrite check_alerts_lines_known by done.
  rewrite IH by done. by rewrite sustained_silent.
Qed.

(** C3, as the code has it.  A metric [m] is breached in every sample of
    [K = S (length rest)] consecutive evaluations.  With [force] on every
    call, notification is requested in all [K] evaluations.  Without
    [force], if the flag of [m] was not set before and no metric becomes
    newly breached after the first evaluation, notification is requested
    in the first evaluation and in no later one. *)
Theorem hysteresis (m : string) (s : list (string * option Q))
    (rest : list (list (string * option Q))) :
  Forall (fun x => NoDup (keys x) ∧ known_keys x) (s :: rest) →
  Forall (fun x => breached x m = true) (s :: rest) →
  (∀ prev_alerts,
     evaluations true prev_alerts (s :: rest) = Some (replicate (S (length rest)) true))
  ∧ (∀ prev_alerts,
       default false (prev_alerts !! m) = false → sustained s rest →
       evaluations false prev_alerts (s :: rest)
         = Some (true :: replicate (length rest) false)).
Proof.
  intros Hwf Hb. split.
  - intros prev. by apply (evaluations_forced m).
  - intros prev Hprev Hsus. simpl.
    destruct (Forall_cons_1 _ _ _ Hwf) as [[Hnd Hk] _].
    destruct (Forall_cons_1 _ _ _ Hb) as [Hs _].
    rewrite check_alerts_lines_known by done.
    rewrite evaluations_sustained by done.
    by rewrite (first_breach_notifies _ _ m).
Qed.


Lemma hysteresis_witness :
  evaluations true ∅
    [[("cpu", Some (90#1)); ("ram", Some (40#1)); ("disk", Some (55#1)); ("temp", None)];
     [("cpu", Some (90#1)); ("ram", Some (40#1)); ("disk", Some (55#1)); ("temp", None)];
     [("cpu", Some (90#1)); ("ram", Some (40#1)); ("disk", Some (55#1)); ("temp", None)]]
    = Some [true; true; true]
  ∧ evaluations false ∅
      [[("cpu", Some (90#1)); ("ram", Some (40#1)); ("disk", Some (55#1)); ("temp", None)];
       [("cpu", Some (90#1)); ("ram", Some (40#1)); ("disk", Some (55#1)); ("temp", None)];
       [("cpu", Some (90#1)); ("ram", Some (40#1)); ("disk", Some (55#1)); ("temp", None)]]
    = Some [true; false; false].
Proof.
  assert (Hwf : Forall (fun x => NoDup (keys x) ∧ known_keys x)
    [[("cpu", Some (90#1)); ("ram", Some (40#1)); ("disk", Some (55#1)); ("temp", None)];
     [("cpu", Some (90#1)); ("ram", Some (40#1)); ("disk", Some (55#1)); ("temp", None)];
     [("cpu", Some (90#1)); ("ram", Some (40#1)); ("disk", Some (55#1)); ("temp", None)]]).
  { repeat apply Forall_cons_2; try apply Forall_nil_2;
      (split; [unfold keys; simpl; compute_done|]);
      intros k v Hin; apply list_elem_of_In in Hin; simpl in Hin;
      destruct Hin as [[= <- _]|[[= <- _]|[[= <- _]|[[=]|[]]]]]; vm_compute; eauto. }
  assert (Hb : Forall (fun x => breached x "cpu" = true)
    [[("cpu", Some (90#1)); ("ram", Some (40#1)); ("disk", Some (55#1)); ("temp", None)];
     [("cpu", Some (90#1)); ("ram", Some (40#1)); ("disk", Some (55#1)); ("temp", None)];
     [("cpu", Some (90#1)); ("ram", Some (40#1)); ("disk", Some (55#1)); ("temp", None)]]).
  { repeat apply Forall_cons_2; try apply Forall_nil_2; reflexivity. }
  destruct (hysteresis "cpu" _ _ Hwf Hb) as [Hforce Hquiet].
  split; [apply Hforce|]. apply Hquiet; [reflexivity|].
  simpl. repeat split; intros k H; exact H.
Defined.

(** C3 as the specification states it does not hold: the CPU stays above
    its limit in two consecutive unforced evaluations from empty flags,
    the RAM goes above its limit in the second one, and notification is
    requested twice. *)
Lemma hysteresis_once_counterexample :
  breached [("cpu", Some (90#1)); ("ram", Some (40#1)); ("disk", Some (55#1)); ("temp", None)]
           "cpu" = true
  ∧ breached [("cpu", Some (90#1)); ("ram", Some (95#1)); ("disk", Some (55#1)); ("temp", None)]
             "cpu" = true
  ∧ evaluations false ∅
      [[("cpu", Some (90#1)); ("ram", Some (40#1)); ("disk", Some (55#1)); ("temp", None)];
       [("cpu", Some (90#1)); ("ram", Some (95#1)); ("disk", Some (55#1)); ("temp", None)]]
    = Some [true; true].
Proof. repeat split. Qed.

End MonitorFacts.

(** ** Reasoning about scripts *)

Section MonadFacts.

Lemma returns_bind {A B : Type} (m : M A) (f : A → M B) w a w1 b w2 :
  returns m w a w1 → returns (f a) w1 b w2 → returns (m ≫= f) w b w2.
Proof. unfold returns, mbind, M_bind. by intros ->. Qed.

Lemma returns_ret {A : Type} (a : A) w : returns (mret a) w a w.
Proof. reflexivity. Qed.

Lemma returns_try {A : Type} (body : M A) handler w a w' :
  returns body w a w' → returns (try_except body handler) w a w'.
Proof. unfold returns, try_except. by intros ->. Qed.

Lemma returns_handler {A : Type} (body : M A) handler w msg w1 a w' :
  body w = (Raise (PyException msg), w1) → returns (handler msg) w1 a w' →
  returns (try_except body handler) w a w'.
Proof. unfold returns, try_except. by intros ->. Qed.

Lemma raises_bind {A B : Type} (m : M A) (f : A → M B) w e w1 :
  m w = (Raise e, w1) → (m ≫= f) w = (Raise e, w1).
Proof. unfold mbind, M_bind. by intros ->. Qed.

Lemma evolves_refl w : evolves w w [] [].
Proof. split; by rewrite ?app_nil_r. Qed.

Lemma evolves_trans w w1 w2 c1 c2 p1 p2 :
  evolves w w1 c1 p1 → evolves w1 w2 c2 p2 → evolves w w2 (c1 ++ c2) (p1 ++ p2).
Proof.
  intros [] []. split; try congruence.
  - rewrite ev_history1, ev_history0. by rewrite app_assoc.
  - rewrite ev_outbox1, ev_outbox0. by rewrite app_assoc.
Qed.

Lemma evolves_quiet w w1 w2 c p :
  evolves w w1 [] [] → evolves w1 w2 c p → evolves w w2 c p.
Proof. intros H1 H2. exact (evolves_trans _ _ _ _ _ _ _ H1 H2). Qed.

Lemma evolves_then_quiet w w1 w2 c p :
  evolves w w1 c p → evolves w1 w2 [] [] → evolves w w2 c p.
Proof.
  intros H1 H2. pose proof (evolves_trans _ _ _ _ _ _ _ H1 H2) as H.
  by rewrite !app_nil_r in H.
Qed.

Lemma now_returns w :
  ∃ w', returns now w (w_clock w (w_ticks w)) w' ∧ evolves w w' [] []
        ∧ w_files w' = w_files w.
Proof. eexists. split; [reflexivity|]. split; [|done]. split; simpl; by rewrite ?app_nil_r. Qed.

Lemma write_log_returns line w :
  ∃ w', returns (write_log line) w tt w' ∧ evolves w w' [] [] ∧ w_files w' = w_files w.
Proof. eexists. split; [reflexivity|]. split; [|done]. split; simpl; by rewrite ?app_nil_r. Qed.

Lemma spawn_returns argv w :
  p_launch_error (w_env w (w_history w) argv) = None →
  ∃ w', returns (spawn argv) w (w_env w (w_history w) argv) w' ∧ evolves w w' [argv] [].
Proof.
  intros H. eexists. unfold returns, spawn. rewrite H. split; [reflexivity|].
  split; simpl; by rewrite ?app_nil_r.
Qed.

Lemma spawn_raises argv w e :
  p_launch_error (w_env w (w_history w) argv) = Some e →
  ∃ w', spawn argv w = (Raise (PyException e), w') ∧ evolves w w' [argv] []
        ∧ w_files w' = w_files w.
Proof.
  intros H. eexists. unfold spawn. rewrite H. split; [reflexivity|].
  split; [|done]. split; simpl; by rewrite ?app_nil_r.
Qed.

End MonadFacts.

Section MaintenanceFacts.
Import Maintenance.

Lemma log_returns msg w :
  ∃ w', returns (log msg) w tt w' ∧ evolves w w' [] [] ∧ w_files w' = w_files w
        ∧ w_log w' = w_log w ++ [log_line (w_clock w (w_ticks w)) msg].
Proof.
  eexists. split; [reflexivity|]. split; [|done]. split; simpl; by rewrite ?app_nil_r.
Qed.

Lemma copy_lines_returns lines acc w :
  ∃ w', returns (for_each lines
                   (fun acc line => write_log line;; mret (acc ++ [strip line])) acc)
                w (acc ++ map strip lines) w'
        ∧ evolves w w' [] [] ∧ w_files w' = w_files w.
Proof.
  revert acc w. induction lines as [|line rest IH]; intros acc w; simpl.
  - exists w. rewrite app_nil_r. split; [reflexivity|]. split; [apply evolves_refl|done].
  - destruct (write_log_returns line w) as (w1 & Hr1 & He1 & Hf1).
    destruct (IH (acc ++ [strip line]) w1) as (w2 & Hr2 & He2 & Hf2).
    exists w2. split; [|split; [by eapply evolves_quiet|congruence]].
    rewrite <- app_assoc in Hr2. simpl in Hr2.
    eapply returns_bind; [|exact Hr2].
    eapply returns_bind; [exact Hr1|reflexivity].
Qed.


Lemma evolves_proc w w1 argv :
  evolves w w1 [] [] → w_env w1 (w_history w1) argv = w_env w (w_history w) argv.
Proof. intros []. by rewrite ev_env0, ev_history0, app_nil_r. Qed.

(** [run_command] always returns, with the result the process's behaviour
    determines, having launched the one command. *)
Lemma run_command_returns cmd description w :
  ∃ w', returns (run_command cmd description) w
          (expected_result (w_env w (w_history w) [cmd])) w'
        ∧ evolves w w' [[cmd]] [].
Proof.
  unfold run_command.
  destruct (log_returns ("Starting: " ++ description) w) as (w1 & Hr1 & He1 & _).
  rewrite <- (evolves_proc w w1 [cmd] He1).
  set (p := w_env w1 (w_history w1) [cmd]).
  unfold expected_result.
  destruct (p_launch_error p) as [e|] eqn:Hlaunch.
  - destruct (spawn_raises [cmd] w1 e Hlaunch) as (w2 & Hr2 & He2 & _).
    destruct (log_returns ("Exception running " ++ description ++ ": " ++ e) w2)
      as (w3 & Hr3 & He3 & _).
    exists w3. split; [|eapply evolves_quiet; [done|by eapply evolves_then_quiet]].
    eapply returns_bind; [exact Hr1|].
    eapply returns_handler; [by apply raises_bind|].
    eapply returns_bind; [exact Hr3|reflexivity].
  - destruct (spawn_returns [cmd] w1 Hlaunch) as (w2 & Hr2 & He2).
    fold p in Hr2.
    destruct (copy_lines_returns (p_lines p) [] w2) as (w3 & Hr3 & He3 & _).
    simpl in Hr3.
    assert (He13 : evolves w w3 [[cmd]] []).
    { eapply evolves_quiet; [done|by eapply evolves_then_quiet]. }
    destruct (p_read_error p) as [e|] eqn:Hread.
    + destruct (log_returns ("Exception running " ++ description ++ ": " ++ e) w3)
        as (w4 & Hr4 & He4 & _).
      exists w4. split; [|by eapply evolves_then_quiet].
      eapply returns_bind; [exact Hr1|].
      eapply returns_handler; [|eapply returns_bind; [exact Hr4|reflexivity]].
      unfold mbind at 1, M_bind. rewrite Hr2.
      unfold mbind at 1, M_bind. rewrite Hr3. by rewrite Hread.
    + destruct (Z.eqb (p_returncode p) 0) eqn:Hrc.
      * destruct (log_returns ("Completed: " ++ description) w3) as (w4 & Hr4 & He4 & _).
        exists w4. split; [|by eapply evolves_then_quiet].
        eapply returns_bind; [exact Hr1|]. apply returns_try.
        eapply returns_bind; [exact Hr2|].
        eapply returns_bind; [exact Hr3|].
        rewrite Hread, Hrc. simpl.
        eapply returns_bind; [exact Hr4|reflexivity].
      * destruct (log_returns ("ERROR running " ++ description ++ " (exit code "
                                 ++ pretty (p_returncode p) ++ ")") w3)
          as (w4 & Hr4 & He4 & _).
        exists w4. split; [|by eapply evolves_then_quiet].
        eapply returns_bind; [exact Hr1|]. apply returns_try.
        eapply returns_bind; [exact Hr2|].
        eapply returns_bind; [exact Hr3|].
        rewrite Hread, Hrc. simpl.
        eapply returns_bind; [exact Hr4|reflexivity].
Qed.


(** *** Ordered dictionaries *)

Lemma dict_get_set {V : Type} (d : list (string * V)) k v k' :
  dict_get (dict_set d k v) k' = if decide (k = k') then Some v else dict_get d k'.
Proof.
  induction d as [|[k0 v0] d IH]; simpl.
  - destruct (decide (k = k')) as [->|Hne].
    + by rewrite String.eqb_refl.
    + apply String.eqb_neq in Hne. by rewrite Hne.
  - destruct (String.eqb k0 k) eqn:E; simpl.
    + apply String.eqb_eq in E. subst k0.
      destruct (decide (k = k')) as [->|Hne].
      * by rewrite String.eqb_refl.
      * apply String.eqb_neq in Hne. by rewrite Hne.
    + destruct (String.eqb k0 k') eqn:E'; [|exact IH].
      apply String.eqb_eq in E'. subst k0. apply String.eqb_neq in E.
      by rewrite decide_False by congruence.
Qed.

Lemma dict_set_keys {V : Type} (d : list (string * V)) k v :
  keys (dict_set d k v) = if decide (k ∈ keys d) then keys d else keys d ++ [k].
Proof.
  unfold keys. induction d as [|[k0 v0] d IH].
  - destruct (decide (k ∈ map fst ([] : list (string * V)))) as [Hin|_]; [|done].
    by apply elem_of_nil in Hin.
  - cbn [dict_set]. destruct (String.eqb k0 k) eqn:E.
    + apply String.eqb_eq in E. subst k0.
      destruct (decide (k ∈ map fst ((k, v0) :: d))) as [_|Hnin]; [done|].
      exfalso. apply Hnin. left.
    + apply String.eqb_neq in E. cbn [map fst]. rewrite IH.
      destruct (decide (k ∈ map fst d)) as [Hin|Hnin];
        destruct (decide (k ∈ k0 :: map fst d)) as [Hin'|Hnin']; try done.
      * exfalso. apply Hnin'. by right.
      * apply elem_of_cons in Hin' as [Heq|Hin']; congruence.
Qed.

(** Assignment keeps one binding per key. *)
Lemma dict_set_NoDup {V : Type} (d : list (string * V)) k v :
  NoDup (keys d) → NoDup (keys (dict_set d k v)).
Proof.
  intros Hnd. rewrite dict_set_keys. case_decide as Hin; [done|].
  apply NoDup_app. split; [done|]. split; [|apply NoDup_singleton].
  intros x Hx ->%list_elem_of_singleton. by apply Hin.
Qed.

(** *** The dispatch loop and the state update *)

Lemma run_all_returns tasks results w :
  ∃ w', returns (for_each tasks
                   (fun results t =>
                      r ← run_task_function t; mret (dict_set results (name_of t) r))
                   results)
                w (expected_results (w_env w) (w_history w) results tasks) w'
        ∧ evolves w w' (map (fun t => [fst (command_of t)]) tasks) [].
Proof.
  revert results w. induction tasks as [|t rest IH]; intros results w; simpl.
  - exists w. split; [reflexivity|apply evolves_refl].
  - destruct (run_command_returns (fst (command_of t)) (snd (command_of t)) w)
      as (w1 & Hr1 & He1).
    destruct (IH (dict_set results (name_of t)
                    (expected_result (w_env w (w_history w) [fst (command_of t)]))) w1)
      as (w2 & Hr2 & He2).
    rewrite (ev_env _ _ _ _ He1), (ev_history _ _ _ _ He1) in Hr2.
    exists w2. split.
    + eapply returns_bind; [|exact Hr2].
      eapply returns_bind; [exact Hr1|reflexivity].
    + exact (evolves_trans _ _ _ _ _ _ _ He1 He2).
Qed.

Lemma update_state_returns results state w :
  NoDup (keys results) →
  ∃ state' w',
    returns (update_state results state) w state' w'
    ∧ evolves w w' [] [] ∧ w_files w' = w_files w
    ∧ (∀ k, match dict_get results k with
            | Some r => ∃ ts, dict_get state' k = Some (mkTaskRecord ts (fst r) (snd r))
            | None => dict_get state' k = dict_get state k
            end)
    ∧ (NoDup (keys state) → NoDup (keys state')).
Proof.
  unfold update_state.
  revert state w. induction results as [|[k0 r0] rest IH]; intros state w Hnd; simpl.
  - exists state, w. split; [reflexivity|]. split; [apply evolves_refl|]. done.
  - apply NoDup_cons in Hnd as [Hk0 Hnd]. cbn [fst] in Hk0.
    destruct (now_returns w) as (w1 & Hr1 & He1 & Hf1).
    destruct (IH (dict_set state k0
                    (mkTaskRecord (dt_iso (w_clock w (w_ticks w))) (fst r0) (snd r0)))
                 w1 Hnd) as (state' & w2 & Hr2 & He2 & Hf2 & Hget & Hkeys).
    exists state', w2. split; [|split; [|split; [|split]]].
    + eapply returns_bind; [|exact Hr2].
      eapply returns_bind; [exact Hr1|reflexivity].
    + by eapply evolves_quiet.
    + congruence.
    + intros k. specialize (Hget k). destruct (String.eqb k0 k) eqn:E.
      * apply String.eqb_eq in E. subst k0.
        apply dict_get_None in Hk0. rewrite Hk0 in Hget. rewrite Hget.
        rewrite dict_get_set, decide_True by done. eauto.
      * destruct (dict_get rest k); [done|]. rewrite Hget.
        apply String.eqb_neq in E. by rewrite dict_get_set, decide_False.
    + intros H. by apply Hkeys, dict_set_NoDup.
Qed.

Lemma send_telegram_returns test_mode msg w :
  ∃ w', returns (send_telegram test_mode msg) w tt w'
        ∧ evolves w w' [] (if test_mode then [] else [msg])
        ∧ w_files w' = w_files w
        ∧ (test_mode = true →
           w_log w' = w_log w ++ [log_line (w_clock w (w_ticks w))
                                    ("[TEST MODE] Telegram alert: " ++ msg)]).
Proof.
  unfold send_telegram. destruct test_mode.
  { destruct (log_returns ("[TEST MODE] Telegram alert: " ++ msg) w)
      as (w' & Hr & He & Hf & Hl). by exists w'. }
  destruct (w_http w (length (w_outbox w))) as [status text|e] eqn:Hhttp.
  - destruct (negb (Z.eqb status 200)) eqn:Hst.
    + eexists. split; [|split].
      * apply returns_try. unfold returns, mbind, M_bind, http_post.
        rewrite Hhttp, Hst. reflexivity.
      * split; simpl; by rewrite ?app_nil_r.
      * done.
    + eexists. split; [|split].
      * apply returns_try. unfold returns, mbind, M_bind, http_post.
        rewrite Hhttp, Hst. reflexivity.
      * split; simpl; by rewrite ?app_nil_r.
      * done.
  - eexists. split; [|split].
    + eapply returns_handler; [|reflexivity].
      unfold mbind, M_bind, http_post. rewrite Hhttp. reflexivity.
    + split; simpl; by rewrite ?app_nil_r.
    + done.
Qed.


Lemma run_tasks_returns task w :
  ∃ w', returns (run_tasks task) w (task_results w task) w'
        ∧ evolves w w' (task_commands task) [].
Proof.
  destruct task as [|t].
  - exact (run_all_returns tasks_to_run [] w).
  - unfold run_tasks, task_results, task_commands.
    destruct (run_command_returns (fst (command_of t)) (snd (command_of t)) w)
      as (w1 & Hr1 & He1).
    exists w1. split; [|done].
    eapply returns_bind; [exact Hr1|].
    reflexivity.
Qed.

Lemma task_results_NoDup w task : NoDup (keys (task_results w task)).
Proof.
  destruct task as [|t]; unfold keys; simpl.
  - compute_done.
  - apply NoDup_singleton.
Qed.

Lemma save_state_returns state w :
  ∃ w', returns (save_state state) w tt w' ∧ evolves w w' [] []
        ∧ f_maint (w_files w') = Some state.
Proof. eexists. split; [reflexivity|]. split; [|done]. split; simpl; by rewrite ?app_nil_r. Qed.

(** The whole script with a configuration file: it returns normally,
    launches the commands of the task, leaves a state in which every task
    that ran has a record made of its own result and every other key its
    old record, and posts the summary unless it is in test mode. *)
Lemma main_returns config task test w :
  ∃ w' state' t,
    main (Some config) task test w = (Ok tt, w')
    ∧ evolves w w' (task_commands task)
        (if effective_test_mode config test then []
         else [summary_msg t (task_results w task)])
    ∧ f_maint (w_files w') = Some state'
    ∧ (∀ k, match dict_get (task_results w task) k with
            | Some r => ∃ ts, dict_get state' k = Some (mkTaskRecord ts (fst r) (snd r))
            | None => dict_get state' k = dict_get (default [] (f_maint (w_files w))) k
            end)
    ∧ (NoDup (keys (default [] (f_maint (w_files w)))) → NoDup (keys state'))
    ∧ (effective_test_mode config test = true →
       ∃ t', log_line t' ("[TEST MODE] Telegram alert: "
                            ++ summary_msg t (task_results w task)) ∈ w_log w').
Proof.
  destruct (now_returns w) as (w1 & Hr1 & He1 & Hf1).
  destruct (run_tasks_returns task w1) as (w2 & Hr2 & He2).
  assert (Hres : task_results w1 task = task_results w task).
  { destruct task; simpl; by rewrite (ev_env _ _ _ _ He1), (ev_history _ _ _ _ He1), app_nil_r. }
  rewrite Hres in Hr2.
  destruct (update_state_returns (task_results w task) (default [] (f_maint (w_files w))) w2
              (task_results_NoDup w task))
    as (state' & w3 & Hr3 & He3 & Hf3 & Hget & Hkeys).
  destruct (save_state_returns state' w3) as (w4 & Hr4 & He4 & Hf4).
  destruct (now_returns w4) as (w5 & Hr5 & He5 & Hf5).
  destruct (send_telegram_returns (effective_test_mode config test)
              (summary_msg (w_clock w4 (w_ticks w4)) (task_results w task)) w5)
    as (w6 & Hr6 & He6 & Hf6 & Hl6).
  destruct (log_returns "=== Maintenance Module Finished ===" w6)
    as (w7 & Hr7 & He7 & Hf7 & Hl7).
  exists w7, state', (w_clock w4 (w_ticks w4)).
  split; [|split; [|split; [|split; [|split]]]].
  - unfold main. change (Ok tt, w7) with (Ok tt, w7).
    eapply (returns_bind _ _ w _ w); [reflexivity|]. cbn beta.
    eapply returns_bind; [exact Hr1|].
    eapply (returns_bind _ _ w1 _ w1).
    { unfold load_state. eapply returns_bind; [reflexivity|]. rewrite Hf1. reflexivity. }
    eapply returns_bind; [exact Hr2|].
    eapply returns_bind; [exact Hr3|].
    eapply returns_bind; [exact Hr4|].
    eapply returns_bind; [exact Hr5|].
    eapply returns_bind; [exact Hr6|].
    exact Hr7.
  - eapply evolves_quiet; [exact He1|].
    pose proof (evolves_trans _ _ _ _ _ _ _ He2
                  (evolves_quiet _ _ _ _ _ He3
                     (evolves_quiet _ _ _ _ _ He4
                        (evolves_quiet _ _ _ _ _ He5
                           (evolves_then_quiet _ _ _ _ _ He6 He7))))) as He.
    by rewrite app_nil_r in He.
  - congruence.
  - exact Hget.
  - exact Hkeys.
  - intros Htm. exists (w_clock w5 (w_ticks w5)).
    rewrite Hl7, (Hl6 Htm). apply elem_of_app. left. apply elem_of_app. right. left.
Qed.




End MaintenanceFacts.

(** ** monitor_bot.py *)

Section MonitorBotFacts.
Import MonitorBot.

(** [subprocess.run] in one statement: what it gives back and what it
    leaves, as a function of the process's behaviour. *)
Lemma subprocess_run_spec argv w :
  ∃ w',
    subprocess_run argv w =
      (match p_launch_error (w_env w (w_history w) argv),
             p_read_error (w_env w (w_history w) argv) with
       | Some e, _ => Raise (PyException e)
       | None, Some e => Raise (PyException e)
       | None, None =>
           Ok (String.concat "" (p_lines (w_env w (w_history w) argv)),
               p_stderr (w_env w (w_history w) argv),
               p_returncode (w_env w (w_history w) argv))
       end, w')
    ∧ evolves w w' [argv] []
    ∧ w_files w' = match p_launch_error (w_env w (w_history w) argv) with
                   | Some _ => w_files w
                   | None => p_touch (w_env w (w_history w) argv) (w_files w)
                   end.
Proof.
  unfold subprocess_run.
  destruct (p_launch_error (w_env w (w_history w) argv)) as [e|] eqn:Hlaunch.
  - destruct (spawn_raises argv w e Hlaunch) as (w1 & Hr1 & He1 & Hf1).
    exists w1. split; [by apply raises_bind|done].
  - eexists. unfold mbind, M_bind, spawn. rewrite Hlaunch.
    destruct (p_read_error (w_env w (w_history w) argv)) as [e|] eqn:Hread.
    + split; [reflexivity|]. split; [|done]. split; simpl; by rewrite ?app_nil_r.
    + split; [reflexivity|]. split; [|done]. split; simpl; by rewrite ?app_nil_r.
Qed.

Lemma log_task_returns task message w :
  ∃ w', returns (log_task task message) w
          (task ++ "_" ++ dt_stamp (w_clock w (w_ticks w)) ++ ".log")%string w'
        ∧ evolves w w' [] [] ∧ w_files w' = w_files w.
Proof. eexists. split; [reflexivity|]. split; [|done]. split; simpl; by rewrite ?app_nil_r. Qed.

Lemma save_maint_state_returns task ok out w :
  ∃ w', returns (save_maint_state task ok out) w tt w'
        ∧ evolves w w' [] []
        ∧ f_maint (w_files w')
          = Some (dict_set (default [] (f_maint (w_files w))) task
                    (mkTaskRecord (dt_iso (w_clock w (w_ticks w))) ok out)).
Proof.
  eexists. split; [unfold returns, save_maint_state; cbn; reflexivity|].
  split; [|done]. split; simpl; by rewrite ?app_nil_r.
Qed.

Lemma run_task_returns s task w :
  ∃ w' log_file,
    returns (run_task s task) w
      (expected_task_result
         (w_env w (w_history w)
            [VENV_PYTHON s; MAINT_SCRIPT s; "--task"; task; "--config"; CONFIG_FILE s]),
       log_file) w'.
Proof.
  unfold run_task.
  set (argv := [VENV_PYTHON s; MAINT_SCRIPT s; "--task"; task; "--config"; CONFIG_FILE s]).
  destruct (subprocess_run_spec argv w) as (w1 & Hr1 & He1 & Hf1).
  unfold expected_task_result.
  set (p := w_env w (w_history w) argv) in *.
  assert (Hfail : ∀ e, subprocess_run argv w = (Raise (PyException e), w1) →
            ∃ w' log_file,
              returns (try_except
                (subprocess_run argv ≫= λ '(out, err, rc),
                   let output :=
                     (strip out ++ (if negb (String.eqb err "")
                                    then newline ++ strip err else ""))%string in
                   let ok := Z.eqb rc 0 in
                   log_task task output ≫= λ log_file,
                     save_maint_state task ok output ≫= λ _, mret (ok, output, log_file))
                (λ e, log_task task e ≫= λ log_file,
                        save_maint_state task false e ≫= λ _, mret (false, e, log_file)))
                w (false, e, log_file) w').
  { intros e He.
    destruct (log_task_returns task e w1) as (w2 & Hr2 & _).
    destruct (save_maint_state_returns task false e w2) as (w3 & Hr3 & _).
    exists w3. eexists. eapply returns_handler; [by apply raises_bind|].
    eapply returns_bind; [exact Hr2|].
    eapply returns_bind; [exact Hr3|reflexivity]. }
  destruct (p_launch_error p) as [e|]; [by apply Hfail|].
  destruct (p_read_error p) as [e|]; [by apply Hfail|].
  clear Hfail.
  destruct (log_task_returns task
              (strip (String.concat "" (p_lines p))
                 ++ (if negb (String.eqb (p_stderr p) "") then newline ++ strip (p_stderr p)
                     else ""))%string w1) as (w2 & Hr2 & _).
  destruct (save_maint_state_returns task (Z.eqb (p_returncode p) 0)
              (strip (String.concat "" (p_lines p))
                 ++ (if negb (String.eqb (p_stderr p) "") then newline ++ strip (p_stderr p)
                     else ""))%string w2) as (w3 & Hr3 & _).
  exists w3. eexists. apply returns_try.
  eapply returns_bind; [exact Hr1|]. cbn beta iota.
  eapply returns_bind; [exact Hr2|].
  eapply returns_bind; [exact Hr3|reflexivity].
Qed.

End MonitorBotFacts.

(** *** The script and its pure core *)

Section DownAlertScript.
Import DownAlert.

Lemma down_alert_log_returns msg w :
  ∃ w', returns (log msg) w tt w' ∧ evolves w w' [] [] ∧ w_files w' = w_files w.
Proof. eexists. split; [reflexivity|]. split; [|done]. split; simpl; by rewrite ?app_nil_r. Qed.

Lemma check_pihole_returns w :
  ∃ b w', returns check_pihole w b w'
          ∧ evolves w w' [["systemctl"; "is-active"; "pihole-FTL"]] [].
Proof.
  unfold check_pihole.
  destruct (subprocess_run_spec ["systemctl"; "is-active"; "pihole-FTL"] w)
    as (w1 & Hr1 & He1 & _).
  set (p := w_env w (w_history w) ["systemctl"; "is-active"; "pihole-FTL"]) in *.
  assert (Hfail : ∀ e, subprocess_run ["systemctl"; "is-active"; "pihole-FTL"] w
                       = (Raise (PyException e), w1) →
            ∃ b w', returns (try_except
                      (subprocess_run ["systemctl"; "is-active"; "pihole-FTL"]
                         ≫= λ '(out, _, _), mret (String.eqb (strip out) "active"))
                      (λ e, log ("Error checking Pi-hole FTL service: " ++ e) ≫= λ _, mret false))
                    w b w'
                    ∧ evolves w w' [["systemctl"; "is-active"; "pihole-FTL"]] []).
  { intros e He.
    destruct (down_alert_log_returns ("Error checking Pi-hole FTL service: " ++ e) w1)
      as (w2 & Hr2 & He2 & _).
    exists false, w2. split; [|by eapply evolves_then_quiet].
    eapply returns_handler; [by apply raises_bind|].
    eapply returns_bind; [exact Hr2|reflexivity]. }
  destruct (p_launch_error p); [by eapply Hfail|].
  destruct (p_read_error p); [by eapply Hfail|].
  eexists _, w1. split; [|exact He1].
  apply returns_try. eapply returns_bind; [exact Hr1|reflexivity].
Qed.

Lemma check_internet_returns w :
  ∃ b w', returns check_internet w b w'
          ∧ evolves w w' [["ping"; "-c"; "1"; "-W"; "2"; "1.1.1.1"]] [].
Proof.
  unfold check_internet.
  destruct (subprocess_run_spec ["ping"; "-c"; "1"; "-W"; "2"; "1.1.1.1"] w)
    as (w1 & Hr1 & He1 & _).
  set (p := w_env w (w_history w) ["ping"; "-c"; "1"; "-W"; "2"; "1.1.1.1"]) in *.
  assert (Hfail : ∀ e, subprocess_run ["ping"; "-c"; "1"; "-W"; "2"; "1.1.1.1"] w
                       = (Raise (PyException e), w1) →
            ∃ b w', returns (try_except
                      (subprocess_run ["ping"; "-c"; "1"; "-W"; "2"; "1.1.1.1"]
                         ≫= λ '(_, _, rc), mret (Z.eqb rc 0))
                      (λ e, log ("Error checking internet: " ++ e) ≫= λ _, mret false))
                    w b w'
                    ∧ evolves w w' [["ping"; "-c"; "1"; "-W"; "2"; "1.1.1.1"]] []).
  { intros e He.
    destruct (down_alert_log_returns ("Error checking internet: " ++ e) w1)
      as (w2 & Hr2 & He2 & _).
    exists false, w2. split; [|by eapply evolves_then_quiet].
    eapply returns_handler; [by apply raises_bind|].
    eapply returns_bind; [exact Hr2|reflexivity]. }
  destruct (p_launch_error p); [by eapply Hfail|].
  destruct (p_read_error p); [by eapply Hfail|].
  eexists _, w1. split; [|exact He1].
  apply returns_try. eapply returns_bind; [exact Hr1|reflexivity].
Qed.

Lemma down_alert_send_returns test_mode msg w :
  ∃ w', returns (send_telegram test_mode msg) w tt w'
        ∧ evolves w w' [] (if test_mode then [] else [msg]).
Proof.
  unfold send_telegram. destruct test_mode.
  { destruct (down_alert_log_returns ("[TEST MODE] Telegram alert: " ++ msg) w)
      as (w' & Hr & He & _). by exists w'. }
  destruct (w_http w (length (w_outbox w))) as [status text|e] eqn:Hhttp.
  - destruct (negb (Z.eqb status 200)) eqn:Hst.
    + eexists. split.
      * apply returns_try. unfold returns, mbind, M_bind, http_post.
        rewrite Hhttp, Hst. reflexivity.
      * split; simpl; by rewrite ?app_nil_r.
    + eexists. split.
      * apply returns_try. unfold returns, mbind, M_bind, http_post.
        rewrite Hhttp, Hst. reflexivity.
      * split; simpl; by rewrite ?app_nil_r.
  - eexists. split.
    + eapply returns_handler; [|reflexivity].
      unfold mbind, M_bind, http_post. rewrite Hhttp. reflexivity.
    + split; simpl; by rewrite ?app_nil_r.
Qed.

Lemma send_alerts_returns test_mode t alerts w :
  ∃ w', returns (for_each alerts
                   (fun _ msg =>
                      send_telegram test_mode (full_msg t msg);;
                      log ("Telegram alert sent: " ++ full_msg t msg))
                   tt) w tt w'
        ∧ evolves w w' [] (if test_mode then [] else map (full_msg t) alerts).
Proof.
  revert w. induction alerts as [|msg rest IH]; intros w; simpl.
  - exists w. split; [reflexivity|]. destruct test_mode; apply evolves_refl.
  - destruct (down_alert_send_returns test_mode (full_msg t msg) w) as (w1 & Hr1 & He1).
    destruct (down_alert_log_returns ("Telegram alert sent: " ++ full_msg t msg) w1)
      as (w2 & Hr2 & He2 & _).
    destruct (IH w2) as (w3 & Hr3 & He3).
    exists w3. split.
    + eapply returns_bind; [|exact Hr3].
      eapply returns_bind; [exact Hr1|exact Hr2].
    + pose proof (evolves_trans _ _ _ _ _ _ _ (evolves_then_quiet _ _ _ _ _ He1 He2) He3) as He.
      by destruct test_mode.
Qed.

(** With a configuration that has both credentials, the script returns
    normally; the state file it leaves and the alerts it posts are those of
    [run_once] on the observation its two checks made. *)
Lemma down_alert_main_returns config t test_mode w :
  cfg_telegram config = Some t → is_Some (t !! "bot_token") → is_Some (t !! "chat_id") →
  ∃ obs ts w',
    main (Some config) test_mode w = (Ok tt, w')
    ∧ f_down_alert (w_files w') = snd (run_once (f_down_alert (w_files w)) obs)
    ∧ w_outbox w' = w_outbox w
        ++ (if test_mode then []
            else map (full_msg ts) (fst (run_once (f_down_alert (w_files w)) obs))).
Proof.
  intros Ht [tok Htok] [chat Hchat].
  destruct (now_returns w) as (w1 & Hr1 & He1 & Hf1).
  destruct (check_pihole_returns w1) as (p & w2 & Hr2 & He2).
  destruct (check_internet_returns w2) as (i & w3 & Hr3 & He3).
  exists (p, i).
  rewrite run_once_detect.
  destruct (detect (load_state (f_down_alert (w_files w))) (p, i)) as [alerts state'] eqn:Hd.
  assert (Hsend : ∃ ts w4,
            returns (match alerts with
                     | [] => log "No change in Pi-hole or internet status."
                     | _ =>
                         t ← now;
                         for_each alerts
                           (fun _ msg =>
                              send_telegram test_mode (full_msg t msg);;
                              log ("Telegram alert sent: " ++ full_msg t msg))
                           tt
                     end) w3 tt w4
            ∧ evolves w3 w4 [] (if test_mode then [] else map (full_msg ts) alerts)).
  { destruct alerts as [|a rest].
    - destruct (down_alert_log_returns "No change in Pi-hole or internet status." w3)
        as (w4 & Hr4 & He4 & _).
      exists (w_clock w3 (w_ticks w3)), w4. split; [exact Hr4|]. by destruct test_mode.
    - destruct (now_returns w3) as (w4 & Hr4 & He4 & _).
      destruct (send_alerts_returns test_mode (w_clock w3 (w_ticks w3)) (a :: rest) w4)
        as (w5 & Hr5 & He5).
      exists (w_clock w3 (w_ticks w3)), w5. split; [|by eapply evolves_quiet].
      eapply returns_bind; [exact Hr4|exact Hr5]. }
  destruct Hsend as (ts & w4 & Hr4 & He4).
  exists ts. eexists. split; [|split].
  - unfold main.
    eapply (returns_bind _ _ w _ w).
    { unfold returns, load_config. rewrite Ht. unfold config_index, mbind, M_bind.
      rewrite Htok, Hchat. reflexivity. }
    eapply returns_bind; [exact Hr1|].
    eapply (returns_bind _ _ w1 _ w1); [reflexivity|]. cbn beta zeta.
    eapply returns_bind; [exact Hr2|].
    eapply returns_bind; [exact Hr3|].
    rewrite Hf1, Hd.
    eapply returns_bind; [exact Hr4|]. reflexivity.
  - reflexivity.
  - cbn.
    pose proof (evolves_quiet _ _ _ _ _ He1
                  (evolves_trans _ _ _ _ _ _ _ He2
                     (evolves_trans _ _ _ _ _ _ _ He3 He4))) as He.
    exact (ev_outbox _ _ _ _ He).
Qed.

End DownAlertScript.

(** ** Task results and task records *)

Lemma expected_result_classified p :
  classified p (fst (Maintenance.expected_result p)) (snd (Maintenance.expected_result p)).
Proof.
  unfold classified, Maintenance.expected_result.
  destruct (p_launch_error p); [done|]. destruct (p_read_error p); [done|].
  simpl. apply Z.eqb_eq.
Qed.

Lemma expected_task_result_classified p :
  classified p (fst (MonitorBot.expected_task_result p))
               (snd (MonitorBot.expected_task_result p)).
Proof.
  unfold classified, MonitorBot.expected_task_result.
  destruct (p_launch_error p); [done|]. destruct (p_read_error p); [done|].
  simpl. apply Z.eqb_eq.
Qed.

(** C6. Both task runners always return a result, never an exception.
    When the external process could be started and read, the result's
    success is true exactly when the exit code is 0; when starting or
    reading it raised, the result is a failure whose output is the text of
    the error. *)
Theorem task_result_classification :
  (∀ cmd description w,
     ∃ ok out w',
       Maintenance.run_command cmd description w = (Ok (ok, out), w')
       ∧ classified (w_env w (w_history w) [cmd]) ok out)
  ∧ (∀ s task w,
       ∃ ok out log_file w',
         MonitorBot.run_task s task w = (Ok (ok, out, log_file), w')
         ∧ classified
             (w_env w (w_history w)
                [MonitorBot.VENV_PYTHON s; MonitorBot.MAINT_SCRIPT s; "--task"; task;
                 "--config"; MonitorBot.CONFIG_FILE s])
             ok out).
Proof.
  split.
  - intros cmd description w.
    destruct (run_command_returns cmd description w) as (w' & Hr & _).
    destruct (Maintenance.expected_result (w_env w (w_history w) [cmd])) as [ok out] eqn:E.
    exists ok, out, w'. split; [exact Hr|].
    pose proof (expected_result_classified (w_env w (w_history w) [cmd])) as H.
    by rewrite E in H.
  - intros s task w.
    destruct (run_task_returns s task w) as (w' & log_file & Hr).
    destruct (MonitorBot.expected_task_result _) as [ok out] eqn:E.
    exists ok, out, log_file, w'. split; [exact Hr|].
    pose proof (expected_task_result_classified
                  (w_env w (w_history w)
                     [MonitorBot.VENV_PYTHON s; MonitorBot.MAINT_SCRIPT s; "--task"; task;
                      "--config"; MonitorBot.CONFIG_FILE s])) as H.
    by rewrite E in H.
Qed.


(** ** Start-up and the status query *)

Section StatusFacts.
Import MonitorBot.

Variable float_repr : Q → string.

(** What [run_live_check] answers, as a function of the child process. *)
Lemma run_live_check_returns s w :
  ∃ w',
    returns (run_live_check s) w
      (match p_launch_error (w_env w (w_history w)
                (live_check_argv s)),
             p_read_error (w_env w (w_history w)
                (live_check_argv s)) with
       | None, None =>
           Z.eqb (p_returncode (w_env w (w_history w)
                    (live_check_argv s))) 0
       | _, _ => false
       end) w'
    ∧ evolves w w'
        [(live_check_argv s)] []
    ∧ w_files w' =
        match p_launch_error (w_env w (w_history w)
                (live_check_argv s)) with
        | Some _ => w_files w
        | None => p_touch (w_env w (w_history w)
                    (live_check_argv s))
                    (w_files w)
        end.
Proof.
  unfold run_live_check.
  set (argv := live_check_argv s).
  destruct (subprocess_run_spec argv w) as (w1 & Hr1 & He1 & Hf1).
  set (p := w_env w (w_history w) argv) in *.
  exists w1. split; [|done].
  destruct (p_launch_error p) as [e|].
  { eapply returns_handler; [by apply raises_bind|reflexivity]. }
  destruct (p_read_error p) as [e|].
  { eapply returns_handler; [by apply raises_bind|reflexivity]. }
  apply returns_try. eapply returns_bind; [exact Hr1|]. cbn beta iota.
  by destruct (Z.eqb (p_returncode p) 0).
Qed.



End StatusFacts.

(** ** Configuration errors *)

Section ConfigFacts.

Lemma monitor_send_telegram_returns test_mode bot_token chat_id msg w :
  ∃ w', returns (Monitor.send_telegram test_mode bot_token chat_id msg) w tt w'
        ∧ w_files w' = w_files w
        ∧ (test_mode = true ∨ truthy bot_token = false ∨ truthy chat_id = false →
           w_outbox w' = w_outbox w).
Proof.
  unfold Monitor.send_telegram. destruct test_mode.
  { eexists. split; [reflexivity|]. split; done. }
  destruct (truthy bot_token) eqn:Htok; simpl.
  2: { eexists. split; [reflexivity|]. split; done. }
  destruct (truthy chat_id) eqn:Hchat; simpl.
  2: { eexists. split; [reflexivity|]. split; done. }
  destruct (w_http w (length (w_outbox w))) as [status text|e] eqn:Hhttp.
  - destruct (negb (Z.eqb status 200)) eqn:Hst.
    + eexists. split; [|split].
      * apply returns_try. unfold returns, mbind, M_bind, http_post.
        rewrite Hhttp, Hst. reflexivity.
      * done.
      * intros [H|[H|H]]; discriminate.
    + eexists. split; [|split].
      * apply returns_try. unfold returns, mbind, M_bind, http_post.
        rewrite Hhttp, Hst. reflexivity.
      * done.
      * intros [H|[H|H]]; discriminate.
  - eexists. split; [|split].
    + eapply returns_handler; [|reflexivity].
      unfold mbind, M_bind, http_post. rewrite Hhttp. reflexivity.
    + done.
    + intros [H|[H|H]]; discriminate.
Qed.

(** [monitor.py] with a configuration file and a sample whose keys are
    known: it returns normally and persists the sample, whatever the
    credentials; in test mode or without a credential nothing is posted. *)
Lemma monitor_main_returns float_repr config test_mode force metrics w :
  Monitor.known_keys metrics →
  ∃ w' flags ts,
    Monitor.main float_repr (Some config) test_mode force metrics w = (Ok tt, w')
    ∧ f_monitor (w_files w') = Some (mkMonState (Some metrics) (Some flags) (Some (Some ts)))
    ∧ (test_mode = true
       ∨ truthy (config_get_credential config "bot_token") = false
       ∨ truthy (config_get_credential config "chat_id") = false →
       w_outbox w' = w_outbox w).
Proof.
  intros Hknown.
  set (tok := config_get_credential config "bot_token").
  set (chat := config_get_credential config "chat_id").
  destruct (now_returns w) as (w1 & Hr1 & He1 & Hf1).
  set (prev := default ∅ (ms_alerts (default Monitor.default_state (f_monitor (w_files w1))))).
  set (send := existsb (Monitor.triggers force prev) metrics).
  set (flags := Monitor.insert_flags metrics ∅).
  set (msg := join_lines (map (Monitor.render_line float_repr)
                            (Monitor.Header :: flat_map Monitor.breach_line metrics))).
  destruct (now_returns w1) as (w2 & Hr2 & He2 & Hf2).
  set (state' := mkMonState (Some metrics) (Some flags)
                   (Some (Some (dt_seconds (w_clock w1 (w_ticks w1)))))).
  assert (Hsave : ∃ w3, returns (Monitor.save_state state') w2 tt w3
                        ∧ f_monitor (w_files w3) = Some state'
                        ∧ w_outbox w3 = w_outbox w2).
  { eexists. split; [reflexivity|]. done. }
  destruct Hsave as (w3 & Hr3 & Hf3 & Ho3).
  assert (Hlast : ∃ w4,
            returns (if send
                     then Monitor.send_telegram test_mode tok chat msg;;
                          Monitor.log ("Alert sent: " ++ msg)
                     else Monitor.log ("No thresholds exceeded. Metrics: "
                                         ++ Monitor.metrics_repr float_repr metrics))
                    w3 tt w4
            ∧ w_files w4 = w_files w3
            ∧ (test_mode = true ∨ truthy tok = false ∨ truthy chat = false →
               w_outbox w4 = w_outbox w3)).
  { destruct send.
    - destruct (monitor_send_telegram_returns test_mode tok chat msg w3)
        as (w4 & Hr4 & Hf4 & Ho4).
      eexists. split; [eapply returns_bind; [exact Hr4|reflexivity]|].
      split; [exact Hf4|]. intros H. cbn. by apply Ho4.
    - eexists. split; [reflexivity|]. done. }
  destruct Hlast as (w4 & Hr4 & Hf4 & Ho4).
  exists w4, flags, (dt_seconds (w_clock w1 (w_ticks w1))).
  split; [|split].
  - unfold Monitor.main.
    eapply (returns_bind _ _ w _ w); [reflexivity|]. cbn beta zeta.
    eapply returns_bind; [exact Hr1|].
    eapply (returns_bind _ _ w1 _ w1); [reflexivity|]. cbn beta zeta.
    unfold Monitor.check_alerts. rewrite check_alerts_lines_known by done.
    eapply returns_bind; [exact Hr2|].
    eapply returns_bind; [exact Hr3|].
    exact Hr4.
  - by rewrite Hf4.
  - intros H. rewrite (Ho4 H), Ho3.
    rewrite (ev_outbox _ _ _ _ He2), (ev_outbox _ _ _ _ He1). by rewrite !app_nil_r.
Qed.


Lemma down_alert_load_config_raises config w :
  (∀ t, cfg_telegram config = Some t → t !! "bot_token" = None ∨ t !! "chat_id" = None) →
  ∃ e, DownAlert.load_config (Some config) w = (Raise e, w).
Proof.
  intros H. unfold DownAlert.load_config.
  destruct (cfg_telegram config) as [t|]; [|by eexists].
  unfold DownAlert.config_index, mbind, M_bind.
  destruct (t !! "bot_token") as [tok|] eqn:Htok; [|by eexists].
  destruct (t !! "chat_id") as [chat|] eqn:Hchat; [|by eexists].
  destruct (H t eq_refl); congruence.
Qed.

(** C7, as the code has it.  A missing configuration file stops each of
    the four scripts before it has changed anything.  A missing bot token
    stops the bot, and a configuration without the [telegram] object or
    one of its two keys stops [down_alert.py], again with nothing changed.
    A missing bot token or chat id stops neither [maintenance.py] nor
    [monitor.py]: they run to the end, persist their state, and post
    nothing. *)
Theorem configuration_errors :
  (∀ test_mode w,
     DownAlert.main None test_mode w = (Raise (PyException "Config file not found"), w))
  ∧ (∀ float_repr test_mode force metrics w,
       Monitor.main float_repr None test_mode force metrics w = (Raise (SystemExit 1), w))
  ∧ (∀ task test w, Maintenance.main None task test w = (Raise (SystemExit 1), w))
  ∧ (∀ w, MonitorBot.startup None w = (Raise (PyException "Config file not found"), w))
  ∧ (∀ config w,
       truthy (config_get_credential config "bot_token") = false →
       MonitorBot.startup (Some config) w
       = (Raise (PyException "Telegram bot token missing in config.json"), w))
  ∧ (∀ config test_mode w,
       (∀ t, cfg_telegram config = Some t →
             t !! "bot_token" = None ∨ t !! "chat_id" = None) →
       ∃ e, DownAlert.main (Some config) test_mode w = (Raise e, w))
  ∧ (∀ config task test w,
       credential_missing config →
       ∃ w' state',
         Maintenance.main (Some config) task test w = (Ok tt, w')
         ∧ w_history w' = w_history w ++ Maintenance.task_commands task
         ∧ f_maint (w_files w') = Some state'
         ∧ w_outbox w' = w_outbox w)
  ∧ (∀ float_repr config force metrics w,
       credential_missing config → Monitor.known_keys metrics →
       ∃ w' state',
         Monitor.main float_repr (Some config) false force metrics w = (Ok tt, w')
         ∧ f_monitor (w_files w') = Some state'
         ∧ ms_metrics state' = Some metrics
         ∧ w_outbox w' = w_outbox w).
Proof.
  repeat split.
  - intros config w Htok. unfold MonitorBot.startup. by rewrite Htok.
  - intros config test_mode w H.
    destruct (down_alert_load_config_raises config w H) as [e He].
    exists e. unfold DownAlert.main. by apply raises_bind.
  - intros config task test w Hmiss.
    destruct (main_returns config task test w)
      as (w' & state' & t & Hmain & Hev & Hfile & _).
    exists w', state'. split; [exact Hmain|]. split; [exact (ev_history _ _ _ _ Hev)|].
    split; [exact Hfile|].
    rewrite (ev_outbox _ _ _ _ Hev).
    assert (Htm : Maintenance.effective_test_mode config test = true).
    { unfold Maintenance.effective_test_mode. by destruct Hmiss as [-> | ->]; rewrite ?orb_true_r. }
    by rewrite Htm, app_nil_r.
  - intros float_repr config force metrics w Hmiss Hknown.
    destruct (monitor_main_returns float_repr config false force metrics w Hknown)
      as (w' & flags & ts & Hmain & Hfile & Hout).
    eexists w', _. split; [exact Hmain|]. split; [exact Hfile|]. split; [reflexivity|].
    apply Hout. right. exact Hmiss.
Qed.

Lemma configuration_errors_witness :
  MonitorBot.startup (Some Example.config_without_credentials) Example.host
  = (Raise (PyException "Telegram bot token missing in config.json"), Example.host)
  ∧ (∃ e, DownAlert.main (Some Example.config_without_credentials) false Example.host
          = (Raise e, Example.host))
  ∧ (∃ w' state',
       Maintenance.main (Some Example.config_without_credentials) Maintenance.TaskAll false
         Example.host = (Ok tt, w')
       ∧ w_history w' = w_history Example.host
                          ++ Maintenance.task_commands Maintenance.TaskAll
       ∧ f_maint (w_files w') = Some state'
       ∧ w_outbox w' = w_outbox Example.host)
  ∧ (∃ w' state',
       Monitor.main (fun _ => "91.5") (Some Example.config_without_credentials) false false
         [("cpu", Some (183#2)); ("ram", Some (40#1)); ("disk", Some (55#1)); ("temp", None)]
         Example.host = (Ok tt, w')
       ∧ f_monitor (w_files w') = Some state'
       ∧ ms_metrics state'
         = Some [("cpu", Some (183#2)); ("ram", Some (40#1)); ("disk", Some (55#1));
                 ("temp", None)]
       ∧ w_outbox w' = w_outbox Example.host).
Proof.
  destruct configuration_errors as (_ & _ & _ & _ & Hbot & Hdown & Hmaint & Hmon).
  split; [|split; [|split]].
  - apply Hbot. reflexivity.
  - apply Hdown. intros t Ht. discriminate Ht.
  - apply Hmaint. left. reflexivity.
  - apply Hmon; [left; reflexivity|].
    intros k v Hin. apply list_elem_of_In in Hin. simpl in Hin.
    destruct Hin as [[= <- _]|[[= <- _]|[[= <- _]|[[=]|[]]]]]; vm_compute; eauto.
Defined.

(** C7 as the specification states it does not hold: [maintenance.py]
    started with a configuration that has no credentials does not abort;
    it runs the task and writes its record to a state file that did not
    exist before. *)
Lemma configuration_error_counterexample :
  truthy (config_get_credential Example.config_without_credentials "bot_token") = false
  ∧ truthy (config_get_credential Example.config_without_credentials "chat_id") = false
  ∧ f_maint (w_files Example.host) = None
  ∧ fst (Maintenance.main (Some Example.config_without_credentials)
           (Maintenance.TaskOne Maintenance.gravity) false Example.host) = Ok tt
  ∧ f_maint (w_files (snd (Maintenance.main (Some Example.config_without_credentials)
                             (Maintenance.TaskOne Maintenance.gravity) false Example.host)))
    = Some [("gravity",
             mkTaskRecord "2024-05-01T03:00:03" true ("Reading lists" ++ newline ++ "done"))].
Proof. repeat split; vm_compute; reflexivity. Qed.

End ConfigFacts.

(** ** The properties on the example host *)




(** * Further properties *)

(** ** down_alert.py: probes, runs and transition counts *)

Section DownAlertFurther.
Import DownAlert.

Lemma check_pihole_spec w :
  ∃ w', returns check_pihole w (pihole_observation (w_env w (w_history w) pihole_argv)) w'
        ∧ evolves w w' [pihole_argv] [].
Proof.
  unfold check_pihole, pihole_observation. fold pihole_argv.
  destruct (subprocess_run_spec pihole_argv w) as (w1 & Hr1 & He1 & _).
  set (p := w_env w (w_history w) pihole_argv) in *.
  destruct (p_launch_error p) as [e|].
  { destruct (down_alert_log_returns ("Error checking Pi-hole FTL service: " ++ e) w1)
      as (w2 & Hr2 & He2 & _).
    exists w2. split; [|by eapply evolves_then_quiet].
    eapply returns_handler; [by apply raises_bind|].
    eapply returns_bind; [exact Hr2|reflexivity]. }
  destruct (p_read_error p) as [e|].
  { destruct (down_alert_log_returns ("Error checking Pi-hole FTL service: " ++ e) w1)
      as (w2 & Hr2 & He2 & _).
    exists w2. split; [|by eapply evolves_then_quiet].
    eapply returns_handler; [by apply raises_bind|].
    eapply returns_bind; [exact Hr2|reflexivity]. }
  exists w1. split; [|exact He1].
  apply returns_try. eapply returns_bind; [exact Hr1|reflexivity].
Qed.

Lemma check_internet_spec w :
  ∃ w', returns check_internet w (internet_observation (w_env w (w_history w) ping_argv)) w'
        ∧ evolves w w' [ping_argv] [].
Proof.
  unfold check_internet, internet_observation. fold ping_argv.
  destruct (subprocess_run_spec ping_argv w) as (w1 & Hr1 & He1 & _).
  set (p := w_env w (w_history w) ping_argv) in *.
  destruct (p_launch_error p) as [e|].
  { destruct (down_alert_log_returns ("Error checking internet: " ++ e) w1)
      as (w2 & Hr2 & He2 & _).
    exists w2. split; [|by eapply evolves_then_quiet].
    eapply returns_handler; [by apply raises_bind|].
    eapply returns_bind; [exact Hr2|reflexivity]. }
  destruct (p_read_error p) as [e|].
  { destruct (down_alert_log_returns ("Error checking internet: " ++ e) w1)
      as (w2 & Hr2 & He2 & _).
    exists w2. split; [|by eapply evolves_then_quiet].
    eapply returns_handler; [by apply raises_bind|].
    eapply returns_bind; [exact Hr2|reflexivity]. }
  exists w1. split; [|exact He1].
  apply returns_try. eapply returns_bind; [exact Hr1|reflexivity].
Qed.

(** X1. Neither probe ever raises.  [check_pihole] answers [True] exactly
    when [systemctl] could be started and read and its stripped output is
    ["active"], whatever its exit code; [check_internet] answers [True]
    exactly when [ping] could be started and read and exited with code 0.
    A probe that cannot be run is reported as down. *)
Theorem probes_degrade_to_down (w : World) :
  (∃ b w', check_pihole w = (Ok b, w')
           ∧ (b = true ↔
              p_launch_error (w_env w (w_history w) pihole_argv) = None
              ∧ p_read_error (w_env w (w_history w) pihole_argv) = None
              ∧ strip (String.concat "" (p_lines (w_env w (w_history w) pihole_argv)))
                = "active"))
  ∧ (∃ b w', check_internet w = (Ok b, w')
             ∧ (b = true ↔
                p_launch_error (w_env w (w_history w) ping_argv) = None
                ∧ p_read_error (w_env w (w_history w) ping_argv) = None
                ∧ p_returncode (w_env w (w_history w) ping_argv) = 0%Z)).
Proof.
  split.
  - destruct (check_pihole_spec w) as (w' & Hr & _).
    eexists _, w'. split; [exact Hr|].
    unfold pihole_observation.
    destruct (p_launch_error _); [split; [discriminate|intros (? & _); discriminate]|].
    destruct (p_read_error _); [split; [discriminate|intros (_ & ? & _); discriminate]|].
    rewrite String.eqb_eq. split; [intros H; auto|intros (_ & _ & H); exact H].
  - destruct (check_internet_spec w) as (w' & Hr & _).
    eexists _, w'. split; [exact Hr|].
    unfold internet_observation.
    destruct (p_launch_error _); [split; [discriminate|intros (? & _); discriminate]|].
    destruct (p_read_error _); [split; [discriminate|intros (_ & ? & _); discriminate]|].
    rewrite Z.eqb_eq. split; [intros H; auto|intros (_ & _ & H); exact H].
Qed.





Lemma total_cons n l : total (n :: l) = n + total l.
Proof. reflexivity. Qed.

Lemma runs_cons file obs rest :
  runs file (obs :: rest)
  = fst (detect (load_state file) obs)
      :: runs (Some (snd (detect (load_state file) obs))) rest.
Proof. simpl. by rewrite run_once_detect. Qed.

Lemma service_total file o rest :
  total (map service_alerts (runs file (o :: rest)))
  = (if service_differs (load_state file) o then 1 else 0) + changes (fst o) (map fst rest).
Proof.
  revert file o. induction rest as [|o' rest IH]; intros file o.
  - rewrite runs_cons. simpl. rewrite service_alerts_detect. unfold total. simpl. lia.
  - rewrite runs_cons. cbn [map]. rewrite total_cons, IH, service_alerts_detect.
    cbn [load_state changes map]. rewrite service_differs_next.
    by destruct (Bool.eqb (fst o) (fst o')).
Qed.

Lemma internet_total file o rest :
  total (map internet_alerts (runs file (o :: rest)))
  = (if internet_differs (load_state file) o then 1 else 0) + changes (snd o) (map snd rest).
Proof.
  revert file o. induction rest as [|o' rest IH]; intros file o.
  - rewrite runs_cons. simpl. rewrite internet_alerts_detect. unfold total. simpl. lia.
  - rewrite runs_cons. cbn [map]. rewrite total_cons, IH, internet_alerts_detect.
    cbn [load_state changes map]. rewrite internet_differs_next.
    by destruct (Bool.eqb (snd o) (snd o')).
Qed.

(** X3. Over any sequence of consecutive runs, the number of service
    alerts is the number of times the service observation changed from one
    run to the next, plus one if the first observation differs from the
    stored status; likewise for the internet alerts. *)
Theorem alerts_count_transitions (file : option (gmap string pyval))
    (o : bool * bool) (rest : list (bool * bool)) :
  total (map service_alerts (runs file (o :: rest)))
  = (if service_differs (load_state file) o then 1 else 0) + changes (fst o) (map fst rest)
  ∧ total (map internet_alerts (runs file (o :: rest)))
    = (if internet_differs (load_state file) o then 1 else 0)
      + changes (snd o) (map snd rest).
Proof. split; [apply service_total|apply internet_total]. Qed.

Lemma py_get_Some_str (state : gmap string pyval) k s :
  py_get state k = PStr s → state !! k = Some (PStr s).
Proof. unfold py_get. destruct (state !! k); simpl; [by intros ->|discriminate]. Qed.

(** X4. The transition checks write the label of the service observation
    under ["pihole_status"], leave under ["internet"] a value equal (in
    Python's sense) to the internet observation, and touch no other key of
    the state; run again on their own result with the same observation
    they change nothing and raise no alert. *)
Theorem detect_updates_status_only (state : gmap string pyval) (obs : bool * bool) :
  snd (detect state obs) !! "pihole_status" = Some (PStr (label (fst obs)))
  ∧ py_eq (py_get (snd (detect state obs)) "internet") (PBool (snd obs)) = true
  ∧ (∀ k, k ≠ "pihole_status" → k ≠ "internet" →
          snd (detect state obs) !! k = state !! k)
  ∧ detect (snd (detect state obs)) obs = ([], snd (detect state obs)).
Proof.
  split; [|split; [|split]].
  - pose proof (detect_service_settled state obs) as H.
    unfold service_differs, py_ne in H. apply negb_false_iff, py_eq_str in H.
    by apply py_get_Some_str.
  - pose proof (detect_internet_settled state obs) as H.
    unfold internet_differs, py_ne in H. by apply negb_false_iff in H.
  - intros k Hk1 Hk2. destruct obs as [p i]. unfold detect. simpl.
    destruct (py_ne (py_get state "pihole_status") (PStr (label p))); simpl.
    + destruct (py_ne _ (PBool i)); simpl;
        rewrite ?(lookup_insert_ne _ "internet") by done;
        by rewrite lookup_insert_ne.
    + destruct (py_ne _ (PBool i)); simpl; [by rewrite lookup_insert_ne|done].
  - apply detect_settled; [apply detect_service_settled|apply detect_internet_settled].
Qed.

(** X5. A state file that lacks a status key is not completed with the
    default: [state.get] gives [None], which differs from every
    observation, so the run raises the alert of that domain whatever is
    observed, and writes the key. *)
Theorem missing_status_key_alerts (state : gmap string pyval) (obs : bool * bool) :
  (state !! "pihole_status" = None →
   service_alerts (fst (run_once (Some state) obs)) = 1)
  ∧ (state !! "internet" = None →
     internet_alerts (fst (run_once (Some state) obs)) = 1
     ∧ snd (detect state obs) !! "internet" = Some (PBool (snd obs))).
Proof.
  split.
  - intros H. rewrite run_once_detect. simpl. rewrite service_alerts_detect.
    unfold service_differs, py_get. by rewrite H.
  - intros H. rewrite run_once_detect. simpl. rewrite internet_alerts_detect.
    unfold internet_differs, py_get. rewrite H. simpl. split; [done|].
    destruct obs as [p i]. unfold detect. simpl.
    destruct (py_ne (py_get state "pihole_status") (PStr (label p))); simpl.
    + unfold py_get. rewrite lookup_insert_ne by done. rewrite H. simpl.
      by rewrite lookup_insert_eq.
    + unfold py_get. rewrite H. simpl. by rewrite lookup_insert_eq.
Qed.

Lemma missing_status_key_alerts_witness :
  service_alerts (fst (run_once (Some ∅) (true, true))) = 1
  ∧ internet_alerts (fst (run_once (Some ∅) (true, true))) = 1
  ∧ snd (detect ∅ (true, true)) !! "internet" = Some (PBool true).
Proof.
  destruct (missing_status_key_alerts ∅ (true, true)) as [Hs Hi].
  split; [apply Hs; reflexivity|apply Hi; reflexivity].
Defined.

End DownAlertFurther.

(** ** monitor.py: flags, message and notification decision *)

Section MonitorFurther.
Import Monitor.

(** X6. The flags an evaluation returns have exactly the keys of the
    sample, each with the truth of "breached in this sample": flags of
    earlier evaluations for metrics that are not in the sample are not
    carried over. *)
Theorem flags_reflect_sample (force : bool) (metrics : list (string * option Q))
    (prev_alerts : gmap string bool) (send : bool) (flags : gmap string bool)
    (lines : list msg_line) :
  NoDup (keys metrics) →
  check_alerts_lines force metrics prev_alerts = Some (send, flags, lines) →
  ∀ k, flags !! k = match dict_get metrics k with
                    | Some _ => Some (breached metrics k)
                    | None => None
                    end.
Proof.
  intros Hnd (_ & -> & _)%check_alerts_lines_Some k.
  rewrite insert_flags_lookup by done.
  destruct (dict_get metrics k) as [v|] eqn:E; [|done].
  by rewrite (breached_item _ _ v).
Qed.

Lemma flags_reflect_sample_witness :
  <["temp" := false]> (<["cpu" := true]> (∅ : gmap string bool)) !! "ram"
  = match dict_get [("cpu", Some (90#1)); ("temp", None)] "ram" with
    | Some _ => Some (breached [("cpu", Some (90#1)); ("temp", None)] "ram")
    | None => None
    end.
Proof.
  apply (flags_reflect_sample false [("cpu", Some (90#1)); ("temp", None)]
           (<["ram" := true]> ∅) true _ [Header; Breach "cpu" (90#1) 85]).
  - unfold keys. simpl. compute_done.
  - reflexivity.
Defined.

Lemma breach_line_intro k v t :
  dict_get THRESHOLDS k = Some t → exceeds v t = true →
  breach_line (k, Some v) = [Breach k v t].
Proof. intros Ht He. unfold breach_line. cbn [fst snd]. by rewrite Ht, He. Qed.

Lemma breach_lines_intro metrics k v t :
  (k, Some v) ∈ metrics → dict_get THRESHOLDS k = Some t → exceeds v t = true →
  Breach k v t ∈ flat_map breach_line metrics.
Proof.
  intros Hin Ht He. induction metrics as [|item rest IH]; [by apply elem_of_nil in Hin|].
  simpl. apply elem_of_app. apply elem_of_cons in Hin as [<-|Hin].
  - left. rewrite (breach_line_intro k v t) by done. left.
  - right. by apply IH.
Qed.

Lemma breach_lines_inv metrics k v t :
  Breach k v t ∈ flat_map breach_line metrics →
  (k, Some v) ∈ metrics ∧ dict_get THRESHOLDS k = Some t ∧ exceeds v t = true.
Proof.
  induction metrics as [|item rest IH]; simpl; [by intros ?%elem_of_nil|].
  intros [H|H]%elem_of_app.
  - unfold breach_line in H. destruct item as [k' [v'|]]; cbn [fst snd] in H;
      [|by apply elem_of_nil in H].
    destruct (dict_get THRESHOLDS k') as [t'|] eqn:Ht; [|by apply elem_of_nil in H].
    destruct (exceeds v' t') eqn:He; [|by apply elem_of_nil in H].
    apply list_elem_of_singleton in H. injection H as -> -> ->.
    split; [left|done].
  - destruct (IH H) as (Hin & Ht & He). split; [by right|done].
Qed.



Lemma triggers_breached force prev metrics k v :
  NoDup (keys metrics) → (k, v) ∈ metrics →
  triggers force prev (k, v)
  = breached metrics k && (force || negb (default false (prev !! k))).
Proof.
  intros Hnd Hin. unfold triggers. simpl.
  by rewrite (breached_item metrics k v) by by apply elem_dict_get.
Qed.

(** X8. An evaluation asks for a notification exactly when some metric is
    breached in the sample and either [force] is set or that metric's
    previous flag is not set.  In particular a forced evaluation in which
    nothing is breached asks for none. *)
Theorem notify_iff_new_or_forced (force : bool) (metrics : list (string * option Q))
    (prev_alerts : gmap string bool) (send : bool) (flags : gmap string bool)
    (lines : list msg_line) :
  NoDup (keys metrics) →
  check_alerts_lines force metrics prev_alerts = Some (send, flags, lines) →
  (send = true ↔
   ∃ k, breached metrics k = true
        ∧ (force = true ∨ default false (prev_alerts !! k) = false))
  ∧ ((∀ k, breached metrics k = false) → send = false).
Proof.
  intros Hnd (-> & _ & _)%check_alerts_lines_Some.
  assert (Hiff : existsb (triggers force prev_alerts) metrics = true ↔
                 ∃ k, breached metrics k = true
                      ∧ (force = true ∨ default false (prev_alerts !! k) = false)).
  { rewrite existsb_exists. split.
    - intros ([k v] & Hin%list_elem_of_In & Htr).
      rewrite (triggers_breached _ _ metrics) in Htr by done.
      apply andb_true_iff in Htr as [Hb Hf]. exists k. split; [done|].
      apply orb_true_iff in Hf as [Hf|Hf]; [by left|right]. by apply negb_true_iff.
    - intros (k & Hb & Hf). destruct (breached_elem _ _ Hb) as (v & Hin & _).
      exists (k, Some v). split; [by apply list_elem_of_In|].
      rewrite (triggers_breached _ _ metrics) by done. rewrite Hb. simpl.
      destruct Hf as [-> | ->]; [done|by rewrite orb_true_r]. }
  split; [exact Hiff|].
  intros Hnone. apply not_true_is_false. intros (k & Hb & _)%Hiff.
  by rewrite Hnone in Hb.
Qed.

Lemma notify_iff_new_or_forced_witness :
  (true = true ↔
   ∃ k, breached [("cpu", Some (90#1)); ("temp", None)] k = true
        ∧ (true = true
           ∨ default false ((<["cpu" := true]> ∅ : gmap string bool) !! k) = false))
  ∧ ((∀ k, breached [("cpu", Some (90#1)); ("temp", None)] k = false) → true = false).
Proof.
  apply (notify_iff_new_or_forced true [("cpu", Some (90#1)); ("temp", None)]
           (<["cpu" := true]> ∅) true
           (<["temp" := false]> (<["cpu" := true]> ∅)) [Header; Breach "cpu" (90#1) 85]).
  - unfold keys. simpl. compute_done.
  - reflexivity.
Defined.


Lemma bind_run {A B : Type} (m : M A) (f : A → M B) w a w1 :
  m w = (Ok a, w1) → (m ≫= f) w = f a w1.
Proof. unfold mbind, M_bind. by intros ->. Qed.

Lemma check_loop_None_inv force prev metrics st :
  check_loop force prev metrics st = None →
  ∃ k v, (k, Some v) ∈ metrics ∧ dict_get THRESHOLDS k = None.
Proof.
  revert st. induction metrics as [|[k [v|]] rest IH]; intros st; cbn [check_loop];
    [discriminate|..].
  - destruct (dict_get THRESHOLDS k) as [t|] eqn:Ht.
    + rewrite check_step_known by (cbn [fst snd]; intros _ _; by rewrite Ht).
      intros (k' & v' & Hin & Hk)%IH. exists k', v'. split; [by right|done].
    + intros _. exists k, v. split; [left|done].
  - rewrite check_step_known by (cbn [fst snd]; discriminate).
    intros (k' & v' & Hin & Hk)%IH. exists k', v'. split; [by right|done].
Qed.

Lemma unknown_not_known metrics k v :
  (k, Some v) ∈ metrics → dict_get THRESHOLDS k = None → ¬ known_keys metrics.
Proof. intros Hin Hk Hknown. destruct (Hknown k v Hin) as [t Ht]. congruence. Qed.

Lemma check_loop_unknown force prev metrics st k v :
  (k, Some v) ∈ metrics → dict_get THRESHOLDS k = None →
  check_loop force prev metrics st = None.
Proof.
  revert st. induction metrics as [|item rest IH]; intros st Hin Hk;
    [by apply elem_of_nil in Hin|].
  cbn [check_loop]. apply elem_of_cons in Hin as [<-|Hin].
  - unfold check_step. by rewrite Hk.
  - destruct (check_step force prev st item); [by apply IH|done].
Qed.

(** X9. [check_alerts] fails, with the [TypeError] of comparing a number
    with [None], exactly when the sample has a number under a key that has
    no threshold.  The script then stops before it has written the state
    file or posted anything. *)
Theorem unknown_metric_type_error (float_repr : Q → string) (config : Config)
    (test_mode force : bool) (metrics : list (string * option Q))
    (prev_alerts : gmap string bool) (w : World) :
  (check_alerts float_repr force metrics prev_alerts = None ↔
   ∃ k v, (k, Some v) ∈ metrics ∧ dict_get THRESHOLDS k = None)
  ∧ ((∃ k v, (k, Some v) ∈ metrics ∧ dict_get THRESHOLDS k = None) →
     ∃ e w', main float_repr (Some config) test_mode force metrics w
             = (Raise (PyException e), w')
             ∧ w_files w' = w_files w ∧ w_outbox w' = w_outbox w).
Proof.
  assert (Hiff : ∀ prev, check_alerts_lines force metrics prev = None ↔
                 ∃ k v, (k, Some v) ∈ metrics ∧ dict_get THRESHOLDS k = None).
  { intros prev. unfold check_alerts_lines. split.
    - destruct (check_loop _ _ _ _) as [st|] eqn:E; [discriminate|].
      intros _. by eapply check_loop_None_inv.
    - intros (k & v & Hin & Hk). by rewrite (check_loop_unknown _ _ _ _ k v). }
  split.
  - unfold check_alerts. rewrite <- (Hiff prev_alerts).
    destruct (check_alerts_lines force metrics prev_alerts) as [[[? ?] ?]|]; [|done].
    split; discriminate.
  - intros Hunknown.
    destruct (now_returns w) as (w1 & Hr1 & He1 & Hf1).
    eexists _, w1. split; [|split; [exact Hf1|]].
    + unfold main.
      rewrite (bind_run _ _ w config w) by reflexivity. cbn beta zeta.
      rewrite (bind_run _ _ w _ w1 Hr1).
      rewrite (bind_run _ _ w1 (default default_state (f_monitor (w_files w1))) w1)
        by reflexivity.
      unfold check_alerts. cbn beta zeta.
      rewrite (proj2 (Hiff _) Hunknown). reflexivity.
    + rewrite (ev_outbox _ _ _ _ He1). by rewrite app_nil_r.
Qed.

Lemma unknown_metric_type_error_witness :
  ∃ e w', main (fun _ => "1.0") (Some Example.config_with_credentials) false false
            [("cpu", Some (12#1)); ("swap", Some (3#1))] Example.host
          = (Raise (PyException e), w')
          ∧ w_files w' = w_files Example.host ∧ w_outbox w' = w_outbox Example.host.
Proof.
  destruct (unknown_metric_type_error (fun _ => "1.0") Example.config_with_credentials
              false false [("cpu", Some (12#1)); ("swap", Some (3#1))] ∅ Example.host)
    as [_ H].
  apply H. exists "swap", (3#1). split; [right; left|reflexivity].
Defined.


Lemma monitor_log_returns msg w :
  ∃ w', returns (log msg) w tt w' ∧ evolves w w' [] [] ∧ w_files w' = w_files w.
Proof. eexists. split; [reflexivity|]. split; [|done]. split; simpl; by rewrite ?app_nil_r. Qed.

Lemma monitor_send_exact test_mode bot_token chat_id msg w :
  ∃ w', returns (send_telegram test_mode bot_token chat_id msg) w tt w'
        ∧ w_files w' = w_files w
        ∧ evolves w w' []
            (if negb test_mode && truthy bot_token && truthy chat_id then [msg] else []).
Proof.
  unfold send_telegram. destruct test_mode; simpl.
  { destruct (monitor_log_returns ("[TEST MODE] Telegram alert: " ++ msg) w)
      as (w' & Hr & He & Hf). by exists w'. }
  destruct (truthy bot_token); simpl.
  2: { destruct (monitor_log_returns "Telegram credentials missing. Skipping alert." w)
         as (w' & Hr & He & Hf). by exists w'. }
  destruct (truthy chat_id); simpl.
  2: { destruct (monitor_log_returns "Telegram credentials missing. Skipping alert." w)
         as (w' & Hr & He & Hf). by exists w'. }
  destruct (w_http w (length (w_outbox w))) as [status text|e] eqn:Hhttp.
  - destruct (negb (Z.eqb status 200)) eqn:Hst.
    + eexists. split; [|split].
      * apply returns_try. unfold returns, mbind, M_bind, http_post.
        rewrite Hhttp, Hst. reflexivity.
      * done.
      * split; simpl; by rewrite ?app_nil_r.
    + eexists. split; [|split].
      * apply returns_try. unfold returns, mbind, M_bind, http_post.
        rewrite Hhttp, Hst. reflexivity.
      * done.
      * split; simpl; by rewrite ?app_nil_r.
  - eexists. split; [|split].
    + eapply returns_handler; [|reflexivity].
      unfold mbind, M_bind, http_post. rewrite Hhttp. reflexivity.
    + done.
    + split; simpl; by rewrite ?app_nil_r.
Qed.




Lemma existsb_ext_in {A : Type} (f g : A → bool) (l : list A) :
  (∀ x, x ∈ l → f x = g x) → existsb f l = existsb g l.
Proof.
  induction l as [|x l IH]; intros H; simpl; [done|].
  rewrite (H x) by left. rewrite IH; [done|]. intros y Hy. apply H. by right.
Qed.

Lemma triggers_after s s' :
  NoDup (keys s) → existsb (triggers false (insert_flags s ∅)) s' = new_breach s s'.
Proof.
  intros Hnd. apply existsb_ext_in. intros item _.
  unfold triggers. simpl. by rewrite flags_remember.
Qed.

Lemma evaluations_later s rest :
  Forall (fun x => NoDup (keys x) ∧ known_keys x) (s :: rest) →
  evaluations false (insert_flags s ∅) rest = Some (later_notifications s rest).
Proof.
  revert s. induction rest as [|s' rest IH]; intros s Hwf; simpl; [done|].
  apply Forall_cons in Hwf as [[Hnd Hk] Hwf].
  destruct (Forall_cons_1 _ _ _ Hwf) as [[Hnd' Hk'] _].
  rewrite check_alerts_lines_known by done.
  rewrite IH by done. by rewrite triggers_after.
Qed.

Lemma new_breach_iff a b :
  NoDup (keys b) →
  new_breach a b = true ↔ ∃ k, breached b k = true ∧ breached a k = false.
Proof.
  intros Hnd. unfold new_breach. rewrite existsb_exists. split.
  - intros ([k v] & Hin%list_elem_of_In & H). simpl in H.
    apply andb_true_iff in H as [Hb Ha]. exists k.
    rewrite (breached_item b k v) by by apply elem_dict_get.
    split; [done|]. by apply negb_true_iff.
  - intros (k & Hb & Ha). destruct (breached_elem _ _ Hb) as (v & Hin & Hi).
    exists (k, Some v). split; [by apply list_elem_of_In|].
    simpl. by rewrite Hi, Ha.
Qed.

(** X11. Along consecutive unforced evaluations, each fed the flags of
    the one before, every evaluation after the first asks for a
    notification exactly when some metric is breached in its sample that
    was not breached in the sample before; a metric that recovers and is
    breached again is therefore notified again, and a recovery itself
    never is. *)
Theorem notification_follows_new_breaches (prev_alerts : gmap string bool)
    (s : list (string * option Q)) (rest : list (list (string * option Q))) :
  Forall (fun x => NoDup (keys x) ∧ known_keys x) (s :: rest) →
  evaluations false prev_alerts (s :: rest)
  = Some (existsb (triggers false prev_alerts) s :: later_notifications s rest)
  ∧ (∀ a b, NoDup (keys b) →
            new_breach a b = true ↔ ∃ k, breached b k = true ∧ breached a k = false).
Proof.
  intros Hwf. split; [|apply new_breach_iff].
  destruct (Forall_cons_1 _ _ _ Hwf) as [[Hnd Hk] _].
  simpl. rewrite check_alerts_lines_known by done.
  by rewrite evaluations_later.
Qed.

Lemma notification_follows_new_breaches_witness :
  evaluations false ∅
    [[("cpu", Some (90#1)); ("temp", None)];
     [("cpu", Some (10#1)); ("temp", None)];
     [("cpu", Some (90#1)); ("temp", None)]]
  = Some [true; false; true].
Proof.
  assert (Hwf : Forall (fun x => NoDup (keys x) ∧ known_keys x)
    [[("cpu", Some (90#1)); ("temp", None)];
     [("cpu", Some (10#1)); ("temp", None)];
     [("cpu", Some (90#1)); ("temp", None)]]).
  { repeat apply Forall_cons_2; try apply Forall_nil_2;
      (split; [unfold keys; simpl; compute_done|]);
      intros k v Hin; apply list_elem_of_In in Hin; simpl in Hin;
      destruct Hin as [[= <- _]|[[=]|[]]]; vm_compute; eauto. }
  destruct (notification_follows_new_breaches ∅ _ _ Hwf) as [H _].
  rewrite H. reflexivity.
Defined.

End MonitorFurther.

(** ** maintenance.py: the log of a command and the delivery of messages *)

Section MaintenanceFurther.
Import Maintenance.

Lemma logged_refl w : logged w w [] 0.
Proof. split; by rewrite ?app_nil_r. Qed.

Lemma logged_trans w w1 w2 l1 l2 n1 n2 :
  logged w w1 l1 n1 → logged w1 w2 l2 n2 → logged w w2 (l1 ++ l2) (n2 + n1).
Proof.
  intros [] []. split.
  - rewrite lg_log1, lg_log0. by rewrite app_assoc.
  - rewrite lg_ticks1, lg_ticks0. lia.
  - congruence.
Qed.

Lemma log_exact msg w :
  ∃ w', returns (log msg) w tt w' ∧ evolves w w' [] [] ∧ w_files w' = w_files w
        ∧ logged w w' [log_line (w_clock w (w_ticks w)) msg] 1.
Proof.
  eexists. split; [reflexivity|]. split; [|split; [done|]].
  - split; simpl; by rewrite ?app_nil_r.
  - split; reflexivity.
Qed.

Lemma copy_lines_exact lines acc w :
  ∃ w', returns (for_each lines
                   (fun acc line => write_log line;; mret (acc ++ [strip line])) acc)
                w (acc ++ map strip lines) w'
        ∧ evolves w w' [] [] ∧ w_files w' = w_files w ∧ logged w w' lines 0.
Proof.
  revert acc w. induction lines as [|line rest IH]; intros acc w; simpl.
  - exists w. rewrite app_nil_r. split; [reflexivity|].
    split; [apply evolves_refl|]. split; [done|apply logged_refl].
  - destruct (IH (acc ++ [strip line]) (set_log (w_log w ++ [line]) w))
      as (w2 & Hr2 & He2 & Hf2 & Hl2).
    exists w2. rewrite <- app_assoc in Hr2. split; [|split; [|split]].
    + eapply returns_bind; [|exact Hr2]. reflexivity.
    + eapply evolves_quiet; [|exact He2]. split; simpl; by rewrite ?app_nil_r.
    + exact Hf2.
    + destruct Hl2 as [Hl Ht Hc]. simpl in *. split; [|done..].
      rewrite Hl. by rewrite <- app_assoc.
Qed.

Lemma spawn_exact argv w :
  ∃ w', spawn argv w
        = (match p_launch_error (w_env w (w_history w) argv) with
           | Some e => Raise (PyException e)
           | None => Ok (w_env w (w_history w) argv)
           end, w')
        ∧ evolves w w' [argv] [] ∧ logged w w' [] 0
        ∧ w_files w' = match p_launch_error (w_env w (w_history w) argv) with
                       | Some _ => w_files w
                       | None => p_touch (w_env w (w_history w) argv) (w_files w)
                       end.
Proof.
  unfold spawn. destruct (p_launch_error (w_env w (w_history w) argv)).
  - eexists. split; [reflexivity|]. split; [|split; [|done]].
    + split; simpl; by rewrite ?app_nil_r.
    + split; simpl; by rewrite ?app_nil_r.
  - eexists. split; [reflexivity|]. split; [|split; [|done]].
    + split; simpl; by rewrite ?app_nil_r.
    + split; simpl; by rewrite ?app_nil_r.
Qed.



(** X13. Sending the summary never raises and is never retried.  In test
    mode nothing is posted and the message goes to the log.  Otherwise
    exactly one POST is made; a response other than 200, or an exception
    of the request, leaves one line in the log with the response text or
    the error, and a 200 leaves none. *)
Theorem delivery_failure_is_logged (test_mode : bool) (msg : string) (w : World) :
  ∃ w',
    send_telegram test_mode msg w = (Ok tt, w')
    ∧ w_outbox w' = w_outbox w ++ (if test_mode then [] else [msg])
    ∧ w_log w' = w_log w
        ++ (if test_mode
            then [log_line (w_clock w (w_ticks w)) ("[TEST MODE] Telegram alert: " ++ msg)]
            else match delivery_failure (w_http w (length (w_outbox w))) with
                 | Some line => [log_line (w_clock w (w_ticks w)) line]
                 | None => []
                 end)
    ∧ w_files w' = w_files w
    ∧ w_history w' = w_history w.
Proof.
  unfold send_telegram, delivery_failure. destruct test_mode.
  { eexists. split; [reflexivity|]. simpl. by rewrite app_nil_r. }
  unfold try_except, mbind, M_bind, http_post.
  destruct (w_http w (length (w_outbox w))) as [status text|e].
  - destruct (Z.eqb status 200); simpl.
    + eexists. split; [reflexivity|]. simpl. by rewrite app_nil_r.
    + eexists. split; [reflexivity|]. done.
  - eexists. split; [reflexivity|]. done.
Qed.



End MaintenanceFurther.

(** ** monitor_bot.py: task runs, status queries and the maintenance handlers *)

Section BotFurther.
Import MonitorBot BotHandlers.

Lemma log_task_exact task message w :
  ∃ w', returns (log_task task message) w
          (task ++ "_" ++ dt_stamp (w_clock w (w_ticks w)) ++ ".log")%string w'
        ∧ evolves w w' [] [] ∧ w_files w' = w_files w
        ∧ w_log w' = w_log w ++ [message].
Proof. eexists. split; [reflexivity|]. split; [|done]. split; simpl; by rewrite ?app_nil_r. Qed.

Lemma save_maint_state_exact task ok out w :
  ∃ w', returns (save_maint_state task ok out) w tt w'
        ∧ evolves w w' [] []
        ∧ f_maint (w_files w')
          = Some (dict_set (default [] (f_maint (w_files w))) task
                    (mkTaskRecord (dt_iso (w_clock w (w_ticks w))) ok out))
        ∧ f_monitor (w_files w') = f_monitor (w_files w)
        ∧ w_log w' = w_log w.
Proof.
  eexists. split; [unfold returns, save_maint_state; cbn; reflexivity|].
  split; [|done]. split; simpl; by rewrite ?app_nil_r.
Qed.

(** The whole effect of [run_task] that the handlers rely on. *)
Lemma run_task_exact s task w :
  ∃ ts stamp w',
    returns (run_task s task) w
      (expected_task_result (w_env w (w_history w) (task_argv s task)),
       (task ++ "_" ++ stamp ++ ".log")%string) w'
    ∧ evolves w w' [task_argv s task] []
    ∧ f_maint (w_files w')
      = Some (dict_set
                (default [] (f_maint (files_after (w_env w (w_history w) (task_argv s task))
                                        (w_files w))))
                task
                (mkTaskRecord ts
                   (fst (expected_task_result (w_env w (w_history w) (task_argv s task))))
                   (snd (expected_task_result (w_env w (w_history w) (task_argv s task))))))
    ∧ snd (expected_task_result (w_env w (w_history w) (task_argv s task))) ∈ w_log w'.
Proof.
  unfold run_task. fold (task_argv s task).
  destruct (subprocess_run_spec (task_argv s task) w) as (w1 & Hr1 & He1 & Hf1).
  unfold expected_task_result, files_after.
  set (p := w_env w (w_history w) (task_argv s task)) in *.
  assert (Hfail : ∀ e, subprocess_run (task_argv s task) w = (Raise (PyException e), w1) →
            ∃ ts stamp w',
              returns (try_except
                (subprocess_run (task_argv s task) ≫= λ '(out, err, rc),
                   let output :=
                     (strip out ++ (if negb (String.eqb err "")
                                    then newline ++ strip err else ""))%string in
                   let ok := Z.eqb rc 0 in
                   log_task task output ≫= λ log_file,
                     save_maint_state task ok output ≫= λ _, mret (ok, output, log_file))
                (λ e, log_task task e ≫= λ log_file,
                        save_maint_state task false e ≫= λ _, mret (false, e, log_file)))
                w (false, e, (task ++ "_" ++ stamp ++ ".log")%string) w'
              ∧ evolves w w' [task_argv s task] []
              ∧ f_maint (w_files w')
                = Some (dict_set (default [] (f_maint (w_files w1))) task
                          (mkTaskRecord ts false e))
              ∧ e ∈ w_log w').
  { intros e He.
    destruct (log_task_exact task e w1) as (w2 & Hr2 & He2 & Hf2 & Hl2).
    destruct (save_maint_state_exact task false e w2) as (w3 & Hr3 & He3 & Hf3 & _ & Hl3).
    eexists _, _, w3. split; [|split; [|split]].
    - eapply returns_handler; [by apply raises_bind|].
      eapply returns_bind; [exact Hr2|].
      eapply returns_bind; [exact Hr3|reflexivity].
    - eapply evolves_then_quiet; [|exact He3]. by eapply evolves_then_quiet.
    - rewrite Hf3, Hf2. reflexivity.
    - rewrite Hl3, Hl2. apply elem_of_app. right. left. }
  destruct (p_launch_error p) as [e|].
  { destruct (Hfail e Hr1) as (ts & stamp & w' & H1 & H2 & H3 & H4).
    exists ts, stamp, w'. rewrite Hf1 in H3. done. }
  destruct (p_read_error p) as [e|].
  { destruct (Hfail e Hr1) as (ts & stamp & w' & H1 & H2 & H3 & H4).
    exists ts, stamp, w'. rewrite Hf1 in H3. done. }
  clear Hfail.
  set (output := (strip (String.concat "" (p_lines p))
                    ++ (if negb (String.eqb (p_stderr p) "")
                        then newline ++ strip (p_stderr p) else ""))%string).
  destruct (log_task_exact task output w1) as (w2 & Hr2 & He2 & Hf2 & Hl2).
  destruct (save_maint_state_exact task (Z.eqb (p_returncode p) 0) output w2)
    as (w3 & Hr3 & He3 & Hf3 & _ & Hl3).
  eexists _, _, w3. split; [|split; [|split]].
  - apply returns_try.
    eapply returns_bind; [exact Hr1|]. cbn beta iota.
    eapply returns_bind; [exact Hr2|].
    eapply returns_bind; [exact Hr3|reflexivity].
  - eapply evolves_then_quiet; [|exact He3]. by eapply evolves_then_quiet.
  - rewrite Hf3, Hf2, Hf1. reflexivity.
  - rewrite Hl3, Hl2. apply elem_of_app. right. left.
Qed.

(** X14. [run_task] launches exactly one child process,
    [maintenance.py --task task], and whatever that child does it then
    stores its own record under the task's key: success as it returns it,
    the output it returns, on top of the state file as the child left it
    (so a record the child wrote under that key is replaced, and the
    records under the other keys are the child's).  The output is also
    written to a log file named after the task and the time. *)
Theorem run_task_persists (s : Settings) (task : string) (w : World) :
  ∃ ok out log_file ts stamp w' state',
    run_task s task w = (Ok (ok, out, log_file), w')
    ∧ w_history w' = w_history w ++ [task_argv s task]
    ∧ log_file = (task ++ "_" ++ stamp ++ ".log")%string
    ∧ out ∈ w_log w'
    ∧ f_maint (w_files w') = Some state'
    ∧ dict_get state' task = Some (mkTaskRecord ts ok out)
    ∧ ∀ k, k ≠ task →
        dict_get state' k
        = dict_get (default [] (f_maint (files_after
                                           (w_env w (w_history w) (task_argv s task))
                                           (w_files w)))) k.
Proof.
  destruct (run_task_exact s task w) as (ts & stamp & w' & Hr & He & Hf & Hl).
  destruct (expected_task_result _) as [ok out] eqn:E. simpl in *.
  eexists ok, out, _, ts, stamp, w', _.
  split; [exact Hr|]. split; [exact (ev_history _ _ _ _ He)|].
  split; [reflexivity|]. split; [exact Hl|]. split; [exact Hf|]. split.
  - by rewrite dict_get_set, decide_True.
  - intros k Hk. by rewrite dict_get_set, decide_False.
Qed.


Section StatusQuery.

Variable float_repr : Q → string.


End StatusQuery.


Lemma send_reply_exact text w :
  ∃ w', returns (send_reply text) w tt w'
        ∧ w_replies w' = w_replies w ++ [text]
        ∧ w_history w' = w_history w ∧ w_env w' = w_env w ∧ w_files w' = w_files w.
Proof. eexists. split; [reflexivity|]. done. Qed.

Lemma run_all_tasks s tasks acc w :
  ∃ results w',
    returns (for_each tasks
               (fun results t =>
                  '(ok, _, log_file) ← run_task s t;
                  mret (results ++ [(t, ok, log_file)]))
               acc) w (acc ++ results) w'
    ∧ evolves w w' (map (task_argv s) tasks) []
    ∧ map (fun r => fst (fst r)) results = tasks
    ∧ map (fun r => snd (fst r)) results
      = child_verdicts (w_env w) (w_history w) s tasks.
Proof.
  revert acc w. induction tasks as [|t rest IH]; intros acc w; simpl.
  - exists [], w. rewrite app_nil_r. split; [reflexivity|].
    split; [apply evolves_refl|done].
  - destruct (run_task_exact s t w) as (ts & stamp & w1 & Hr1 & He1 & _).
    destruct (expected_task_result (w_env w (w_history w) (task_argv s t)))
      as [ok out] eqn:E.
    destruct (IH (acc ++ [(t, ok, (t ++ "_" ++ stamp ++ ".log")%string)]) w1)
      as (results & w2 & Hr2 & He2 & Hnames & Hoks).
    exists ((t, ok, (t ++ "_" ++ stamp ++ ".log")%string) :: results), w2.
    split; [|split; [|split]].
    + eapply returns_bind; [|rewrite <- app_assoc in Hr2; exact Hr2].
      eapply returns_bind; [exact Hr1|reflexivity].
    + exact (evolves_trans _ _ _ _ _ _ _ He1 He2).
    + simpl. by rewrite Hnames.
    + simpl. rewrite Hoks, (ev_env _ _ _ _ He1), (ev_history _ _ _ _ He1). reflexivity.
Qed.


Lemma substring_length (n : nat) (s : string) :
  (n ≤ String.length s)%nat → String.length (substring 0 n s) = n.
Proof.
  revert s. induction n as [|n IH]; intros s Hn.
  - by destruct s.
  - destruct s as [|a s]; simpl in *; [lia|]. rewrite IH; [done|lia].
Qed.

Lemma string_length_app (s1 s2 : string) :
  String.length (s1 ++ s2) = String.length s1 + String.length s2.
Proof. induction s1 as [|a s1 IH]; simpl; [done|by rewrite IH]. Qed.

Lemma substring_prefix (n : nat) (s : string) : String.prefix (substring 0 n s) s = true.
Proof.
  revert s. induction n as [|n IH]; intros s.
  - by destruct s.
  - destruct s as [|a s]; simpl; [done|].
    destruct (ascii_dec a a) as [_|Hne]; [apply IH|by destruct Hne].
Qed.






(** X19. The verdict of the bot is the exit status of [maintenance.py]
    and nothing else.  When the child behaves as [maintenance.py --task t]
    with a configuration file (it exits with the status of the script and
    leaves the state files the script leaves), [run_task] returns success
    and stores a successful record under the task's key, in place of the
    record the child had stored there with the real result of the task's
    command, even when that command failed. *)
Theorem bot_verdict_is_exit_status (s : Settings) (t : Maintenance.task_name)
    (config : Config) (test : bool) (child w : World) :
  p_launch_error (w_env w (w_history w) (task_argv s (Maintenance.name_of t))) = None →
  p_read_error (w_env w (w_history w) (task_argv s (Maintenance.name_of t))) = None →
  p_returncode (w_env w (w_history w) (task_argv s (Maintenance.name_of t)))
  = exit_status (fst (Maintenance.main (Some config) (Maintenance.TaskOne t) test child)) →
  p_touch (w_env w (w_history w) (task_argv s (Maintenance.name_of t))) (w_files w)
  = w_files (snd (Maintenance.main (Some config) (Maintenance.TaskOne t) test child)) →
  ∃ out log_file w' state' ts child_state ts_child,
    run_task s (Maintenance.name_of t) w = (Ok (true, out, log_file), w')
    ∧ f_maint (w_files (snd (Maintenance.main (Some config) (Maintenance.TaskOne t)
                               test child))) = Some child_state
    ∧ dict_get child_state (Maintenance.name_of t)
      = Some (mkTaskRecord ts_child
                (fst (Maintenance.expected_result
                        (w_env child (w_history child) [fst (Maintenance.command_of t)])))
                (snd (Maintenance.expected_result
                        (w_env child (w_history child) [fst (Maintenance.command_of t)]))))
    ∧ f_maint (w_files w') = Some state'
    ∧ dict_get state' (Maintenance.name_of t) = Some (mkTaskRecord ts true out)
    ∧ ∀ k, k ≠ Maintenance.name_of t → dict_get state' k = dict_get child_state k.
Proof.
  intros Hlaunch Hread Hrc Htouch.
  destruct (main_returns config (Maintenance.TaskOne t) test child)
    as (child' & child_state & _ & Hmain & _ & Hcfile & Hcget & _).
  rewrite Hmain in Hrc, Htouch. simpl in Hrc, Htouch.
  destruct (run_task_exact s (Maintenance.name_of t) w)
    as (ts & stamp & w' & Hr & _ & Hf & _).
  unfold expected_task_result, files_after in Hr, Hf.
  rewrite Hlaunch, Hread, Hrc in Hr, Hf. rewrite Htouch, Hcfile in Hf. simpl in Hr, Hf.
  pose proof (Hcget (Maintenance.name_of t)) as Hrec. simpl in Hrec.
  rewrite String.eqb_refl in Hrec. destruct Hrec as [ts_child Hrec].
  eexists _, _, w', _, ts, child_state, ts_child.
  split; [exact Hr|]. rewrite Hmain. simpl.
  split; [exact Hcfile|]. split; [exact Hrec|]. split; [exact Hf|]. split.
  - by rewrite dict_get_set, decide_True.
  - intros k Hk. by rewrite dict_get_set, decide_False.
Qed.

Lemma bot_verdict_is_exit_status_witness :
  ∃ out log_file w' state' ts child_state ts_child,
    run_task Example.settings "pihole_update" Composite.host_running_maintenance
    = (Ok (true, out, log_file), w')
    ∧ f_maint (w_files (snd Composite.maintenance_child)) = Some child_state
    ∧ dict_get child_state "pihole_update"
      = Some (mkTaskRecord ts_child false "no network")
    ∧ f_maint (w_files w') = Some state'
    ∧ dict_get state' "pihole_update" = Some (mkTaskRecord ts true out).
Proof.
  destruct (bot_verdict_is_exit_status Example.settings Maintenance.pihole_update
              Example.config_with_credentials false Example.host
              Composite.host_running_maintenance eq_refl eq_refl eq_refl eq_refl)
    as (out & log_file & w' & state' & ts & child_state & ts_child
        & Hr & Hc & Hcrec & Hf & Hrec & _).
  exists out, log_file, w', state', ts, child_state, ts_child.
  split; [exact Hr|]. split; [exact Hc|]. split; [exact Hcrec|].
  split; [exact Hf|exact Hrec].
Defined.

Section FreshSample.

Variable float_repr : Q → string.


End FreshSample.



(** X22. The menu, the handler and the script agree on the tasks: the
    payload of every button is accepted by [--task]; the name of every
    task of [maintenance.py] parses back to that task; and the four tasks
    the button "All Tasks" runs are the tasks [--task all] runs, in a
    different order. *)
Theorem menu_payloads_are_tasks :
  Forall (fun button => is_Some (Vocabulary.parse_task (snd button))) Vocabulary.keyboard
  ∧ (∀ t, Vocabulary.parse_task (Maintenance.name_of t) = Some (Maintenance.TaskOne t))
  ∧ Vocabulary.parse_task "all" = Some Maintenance.TaskAll
  ∧ all_tasks ≡ₚ map Maintenance.name_of Maintenance.tasks_to_run
  ∧ all_tasks ≠ map Maintenance.name_of Maintenance.tasks_to_run
  ∧ (∀ arg, arg ∉ Vocabulary.choices → Vocabulary.parse_task arg = None).
Proof.
  split; [|split; [|split; [|split; [|split]]]].
  - repeat apply Forall_cons_2; try apply Forall_nil_2; by eexists.
  - intros []; reflexivity.
  - reflexivity.
  - unfold all_tasks. simpl.
    apply perm_skip. etrans; [apply perm_swap|]. reflexivity.
  - discriminate.
  - intros arg Hnot. unfold Vocabulary.parse_task.
    destruct (existsb (String.eqb arg) Vocabulary.choices) eqn:E; [|reflexivity].
    apply existsb_exists in E as (c & Hin & Heq). apply String.eqb_eq in Heq. subst c.
    destruct Hnot. by apply list_elem_of_In.
Qed.

End BotFurther.
